(** * ml/automation.py: retraining and promotion pipeline

    A shallow embedding of the orchestration code of [ml/automation.py]
    (configuration merging, dataset loading and splitting, preprocessing
    column routing, hyper-parameter grid resolution, snapshotting, the
    promotion gate and the HTTP authorisation check), followed by the
    properties stated about it.

    Conventions.
    - A Python [dict] with string keys is a [gmap string _]: Python compares
      dictionaries without regard to insertion order, which is the
      extensional equality of [gmap].  Where the iteration order of a loop
      could be observed the loop body is given over an explicit item list.
    - A Python [float] is a binary64 [float] and is compared with the
      primitive comparison, so NaN behaves as in Python.
    - Code that can raise returns a [result]; the exception classes are the
      constructors of [exn].
    - Library calls whose body is not part of the module (the text
      conversions of Python, scikit-learn and joblib, the clock and the
      random source) are the fields of the classes [PyBuiltins], [Sklearn],
      [Env] and [Formatting]; a file holds the value that its parser
      yields. *)

From Stdlib Require Import ZArith Floats Lia Ascii.
From stdpp Require Import gmap strings pretty list sorting.

Local Open Scope string_scope.

Set Warnings "-register-all,-inexact-float,-clear-no-such-hyp".

(** ** Python values *)

(** The values that YAML and JSON documents denote.  Dictionary keys are
    strings, as in every JSON document and in the default configuration. *)
Inductive pyval : Type :=
  | VNone
  | VBool (b : bool)
  | VInt (z : Z)
  | VFloat (f : float)
  | VStr (s : string)
  | VList (l : list pyval)
  | VDict (d : gmap string pyval).

Abbreviation pydict := (gmap string pyval).

(** Number of constructors of a value; the measure for nested inductions. *)
Fixpoint pyval_size (v : pyval) : nat :=
  match v with
  | VList l => S (foldr (λ x acc, pyval_size x + acc) 0 l)
  | VDict d => S (map_fold (λ _ x acc, pyval_size x + acc) 0 d)
  | _ => 1
  end.

(** ** Exceptions *)

Inductive exn : Type :=
  | FileNotFoundError (msg : string)
  | ValueError (msg : string)
  | KeyError (key : string)
  | TypeError
  | AttributeError
  | JSONDecodeError
  | OverflowError
  | IndexError
  | ParserError
  | IsADirectoryError
  | HTTPException (status_code : Z) (detail : string).

Inductive result (A : Type) : Type :=
  | Ok (a : A)
  | Raise (e : exn).
Arguments Ok {A} a.
Arguments Raise {A} e.

Definition rbind {A B} (r : result A) (k : A → result B) : result B :=
  match r with Ok a => k a | Raise e => Raise e end.

Global Instance result_ret : MRet result := λ _ a, Ok a.
Global Instance result_bind : MBind result := λ _ _ k r, rbind r k.

(** ** Default configuration, lines 33-74 *)

Definition DEFAULT_CONFIG : pydict :=
  <["dataset" := VDict (
      <["input_csv" := VStr ""]> (
      <["target_column" := VStr "target"]> (
      <["drop_columns" := VList []]> (
      <["test_size" := VFloat 0.2]> (
      <["random_state" := VInt 42]> ∅)))))]> (
  <["preprocess" := VDict (
      <["numeric_imputer" := VStr "median"]> (
      <["categorical_imputer" := VStr "most_frequent"]> (
      <["scale_numeric" := VBool true]> ∅)))]> (
  <["model" := VDict (<["type" := VStr "random_forest"]> ∅)]> (
  <["hpo" := VDict (
      <["enabled" := VBool true]> (
      <["cv_folds" := VInt 3]> (
      <["scoring" := VStr "f1_weighted"]> (
      <["param_grid" := VDict ∅]> ∅))))]> (
  <["training" := VDict (<["min_accuracy_to_promote" := VFloat 0.85]> ∅)]> (
  <["artifacts" := VDict (<["base_dir" := VStr "ml/artifacts"]> ∅)]> (
  <["api" := VDict (<["bearer_token" := VStr ""]> ∅)]> (
  <["schedule" := VDict (<["cron" := VStr "0 3 * * 1"]> ∅)]> (
  <["calendar" := VDict (
      <["ics_path" := VStr ""]> (
      <["ics_url" := VStr ""]> (
      <["event_keyword" := VStr "OpenAgents Retrain"]> (
      <["lookahead_minutes" := VInt 30]> (
      <["poll_seconds" := VInt 60]> ∅)))))]> ∅)))))))).

(** ** Config Resolver: [deep_merge] *)

(** [deep_merge(base, override)], lines 77-84.  [out] starts as a copy of
    [base]; each item of [override] either recurses (both sides are
    dictionaries) or overwrites.  The recursion descends into the values of
    [override], so the structural argument is the override as a value. *)
Fixpoint deep_merge_val (base : pydict) (override : pyval) {struct override} : pydict :=
  match override with
  | VDict items =>
      map_fold (λ key value out,
        match out !! key, value with
        | Some (VDict sub), VDict _ => <[key := VDict (deep_merge_val sub value)]> out
        | _, _ => <[key := value]> out
        end) base items
  | _ => base
  end.

Definition deep_merge (base override : pydict) : pydict :=
  deep_merge_val base (VDict override).

(** What one iteration of the loop stores under its key, given the entry
    of [out] under that key. *)
Definition merge_entry (b : option pyval) (value : pyval) : pyval :=
  match b, value with
  | Some (VDict sub), VDict _ => VDict (deep_merge_val sub value)
  | _, _ => value
  end.

(** The value found by following a path of keys through nested mappings. *)
Fixpoint get_path (path : list string) (v : pyval) : option pyval :=
  match path with
  | [] => Some v
  | key :: rest =>
      match v with
      | VDict d => d !! key ≫= get_path rest
      | _ => None
      end
  end.

(** The override does not specify [path]: at some point along the path the
    override lacks the next key, and up to that point it is made of
    mappings. *)
Fixpoint unspecified (path : list string) (override : pydict) : Prop :=
  match path with
  | [] => False
  | key :: rest =>
      match override !! key with
      | None => True
      | Some (VDict sub) => unspecified rest sub
      | Some _ => False
      end
  end.

(** ** Python built-ins *)

(** The conversions of Python that parse or print text are not part of the
    module; they are taken as given.  [repr] prints a value that is not a
    string, [float_of_str] and [int_of_str] are [float(s)] and [int(s)] on a
    string ([None] when Python raises [ValueError]). *)
Class PyBuiltins := {
  repr : pyval → string;
  float_of_str : string → option float;
  int_of_str : string → option Z;
}.

(** [float(n)] for an integer: rounding to nearest even, [OverflowError]
    when the integer is too large for a binary64. *)
Definition float_of_Z (z : Z) : result float :=
  match binary_normalize prec emax z 0 false with
  | S754_infinity _ => Raise OverflowError
  | sf => Ok (SF2Prim sf)
  end.

(** [int(f)] for a float: truncation towards zero. *)
Definition Z_of_float (f : float) : result Z :=
  match Prim2SF f with
  | S754_zero _ => Ok 0%Z
  | S754_finite s m e =>
      let a := if (0 <=? e)%Z then (Z.pos m * 2 ^ e)%Z else (Z.pos m / 2 ^ (- e))%Z in
      Ok (if s then (- a)%Z else a)
  | S754_infinity _ => Raise OverflowError
  | S754_nan => Raise (ValueError "cannot convert float NaN to integer")
  end.

Section builtins.
Context `{!PyBuiltins}.

(** [str(v)] *)
Definition py_str (v : pyval) : string :=
  match v with VStr s => s | _ => repr v end.

(** [float(v)] *)
Definition py_float (v : pyval) : result float :=
  match v with
  | VFloat f => Ok f
  | VInt z => float_of_Z z
  | VBool b => Ok (if b then 1 else 0)%float
  | VStr s =>
      match float_of_str s with
      | Some f => Ok f
      | None => Raise (ValueError "could not convert string to float")
      end
  | _ => Raise TypeError
  end.

(** [int(v)] *)
Definition py_int (v : pyval) : result Z :=
  match v with
  | VInt z => Ok z
  | VBool b => Ok (Z.b2z b)
  | VFloat f => Z_of_float f
  | VStr s =>
      match int_of_str s with
      | Some z => Ok z
      | None => Raise (ValueError "invalid literal for int()")
      end
  | _ => Raise TypeError
  end.
End builtins.

(** [bool(v)]: the truth value of a Python value. *)
Definition py_bool (v : pyval) : bool :=
  match v with
  | VNone => false
  | VBool b => b
  | VInt z => negb (z =? 0)%Z
  | VFloat f => negb (f =? 0)%float
  | VStr s => negb (String.eqb s "")
  | VList l => match l with [] => false | _ => true end
  | VDict d => negb (bool_decide (d = ∅))
  end.

(** [v[key]] with a string key. *)
Definition py_getitem (v : pyval) (key : string) : result pyval :=
  match v with
  | VDict d => match d !! key with Some x => Ok x | None => Raise (KeyError key) end
  | _ => Raise TypeError
  end.

(** [v.get(key, dflt)] *)
Definition py_get (v : pyval) (key : string) (dflt : pyval) : result pyval :=
  match v with
  | VDict d => Ok (default dflt (d !! key))
  | _ => Raise AttributeError
  end.

(** [a >= b] on floats.  The primitive comparison is false as soon as one
    side is NaN, as in Python. *)
Definition float_ge (a b : float) : bool := (b <=? a)%float.

(** ** Files *)

(** A path is the list of its components; the first one is the string given
    to [Path(...)], and [p / name] appends a component. *)
Abbreviation path := (list string).

Definition Path (v : pyval) : result path :=
  match v with VStr s => Ok [s] | _ => Raise TypeError end.

Definition path_div (p : path) (name : string) : path := p ++ [name].
Infix "//" := path_div (at level 40, left associativity).

(** [path.parent] *)
Definition parent (p : path) : path := removelast p.

(** [str(path)] *)
Definition path_str (p : path) : string :=
  match p with
  | [] => "."
  | c :: cs => fold_left (λ acc x, acc +:+ "/" +:+ x) cs c
  end.

(** ** Tables *)

(** The column types of a table, by kind. *)
Inductive dtype : Type :=
  | DInt64 | DFloat64 | DBool | DObject | DDatetime64 | DCategory.

(** The content of one cell; [CNa] is a missing value. *)
Inductive cell : Type :=
  | CNa
  | CInt (z : Z)
  | CFloat (f : float)
  | CBool (b : bool)
  | CStr (s : string).

(** A named column, also a pandas [Series]. *)
Record Series : Type := mkSeries {
  s_name : string;
  s_dtype : dtype;
  s_values : list cell;
}.

(** A table: its number of rows (the length of its index) and its columns
    in order. *)
Record DataFrame : Type := mkDataFrame {
  df_len : nat;
  df_cols : list Series;
}.

(** [df.columns] *)
Definition columns (df : DataFrame) : list string := s_name <$> df_cols df.

(** ** The world: files, directories, clock *)

Inductive file : Type :=
  | FJson (payload : pydict)
  | FYaml (doc : pyval)
  | FCsv (table : DataFrame)
  | FText (text : string)
  | FBytes (blob : string).

(** Files by path, the directories created so far, and the number of
    readings taken from the clock and the random source.  Input and output
    succeed unless a file that is read is missing or has the wrong format. *)
Record world : Type := mkWorld {
  w_files : gmap path file;
  w_dirs : gset path;
  w_ticks : nat;
}.

(** The clock and the random source, by reading number. *)
Class Env := {
  clock_iso : nat → string;      (* [datetime.now(utc).isoformat()] *)
  clock_stamp : nat → string;    (* [strftime("%Y%m%d-%H%M%S")] *)
  uuid4_hex : nat → string;      (* [uuid.uuid4().hex] *)
}.

Definition set_files (fs : gmap path file) (w : world) : world :=
  mkWorld fs (w_dirs w) (w_ticks w).

(** [path.exists()] *)
Definition exists_ (p : path) (w : world) : bool :=
  bool_decide (is_Some (w_files w !! p)) || bool_decide (p ∈ w_dirs w).

(** [ensure_dir(path)], lines 104-105. *)
Definition ensure_dir (p : path) (w : world) : world :=
  mkWorld (w_files w) ({[p]} ∪ w_dirs w) (w_ticks w).

(** [write_json(path, payload)], lines 108-111. *)
Definition write_json (p : path) (payload : pydict) (w : world) : world :=
  let w := ensure_dir (parent p) w in
  set_files (<[p := FJson payload]> (w_files w)) w.

(** [read_json(path)], lines 114-118. *)
Definition read_json (p : path) (w : world) : result pydict :=
  if negb (exists_ p w) then Ok ∅
  else match w_files w !! p with
       | Some (FJson payload) => Ok payload
       | _ => Raise JSONDecodeError
       end.

(** [shutil.copy2(src, dst)] *)
Definition copy2 (src dst : path) (w : world) : result world :=
  match w_files w !! src with
  | Some content => Ok (set_files (<[dst := content]> (w_files w)) w)
  | None => Raise (FileNotFoundError (path_str src))
  end.

Section clock.
Context `{!Env}.

(** [utc_now_iso()], lines 95-96. *)
Definition utc_now_iso (w : world) : string * world :=
  (clock_iso (w_ticks w), mkWorld (w_files w) (w_dirs w) (S (w_ticks w))).

(** [make_run_id()], lines 99-101. *)
Definition make_run_id (w : world) : string * world :=
  (clock_stamp (w_ticks w) +:+ "-" +:+ String.substring 0 8 (uuid4_hex (w_ticks w)),
   mkWorld (w_files w) (w_dirs w) (S (w_ticks w))).
End clock.

(** ** Promotion Gate *)

Section promotion.
Context `{!PyBuiltins, !Env}.

(** [maybe_promote(model_path, metrics, config, run_id)], lines 312-338. *)
Definition maybe_promote (model_path : path) (metrics config : pydict)
    (run_id : string) (w : world) : result (pydict * world) :=
  artifacts ← py_getitem (VDict config) "artifacts";
  base ← py_getitem artifacts "base_dir";
  base_dir ← Path base;
  let production_dir := base_dir // "production" in
  let w := ensure_dir production_dir w in
  training ← py_getitem (VDict config) "training";
  t ← py_get training "min_accuracy_to_promote" (VFloat 0.85);
  threshold ← py_float t;
  let prod_metrics_path := production_dir // "metrics.json" in
  previous_metrics ← read_json prod_metrics_path w;
  previous_accuracy ← py_float (default (VFloat (-1)) (previous_metrics !! "accuracy"));
  current_accuracy ← py_float (default (VFloat 0) (metrics !! "accuracy"));
  let promote :=
    float_ge current_accuracy threshold && float_ge current_accuracy previous_accuracy in
  let promotion : pydict :=
    <["promoted" := VBool promote]> (
    <["threshold" := VFloat threshold]> (
    <["previous_accuracy" := VFloat previous_accuracy]> (
    <["current_accuracy" := VFloat current_accuracy]> ∅))) in
  if negb promote then Ok (promotion, w)
  else
    w ← copy2 model_path (production_dir // "model.joblib") w;
    let out_metrics := <["run_id" := VStr run_id]> metrics in
    let '(now, w) := utc_now_iso w in
    let out_metrics := <["promoted_at" := VStr now]> out_metrics in
    let w := write_json prod_metrics_path out_metrics w in
    Ok (promotion, w).
End promotion.

(** *** What the gate reads and returns *)

Section promotion_readings.
Context `{!PyBuiltins}.

(** The production directory, [Path(config["artifacts"]["base_dir"]) /
    "production"]. *)
Definition production_dir_of (config : pydict) : result path :=
  artifacts ← py_getitem (VDict config) "artifacts";
  base ← py_getitem artifacts "base_dir";
  base_dir ← Path base;
  Ok (base_dir // "production").

(** The threshold, [float(config["training"].get("min_accuracy_to_promote",
    0.85))]. *)
Definition threshold_of (config : pydict) : result float :=
  training ← py_getitem (VDict config) "training";
  t ← py_get training "min_accuracy_to_promote" (VFloat 0.85);
  py_float t.

(** The accuracy of the production metrics record under [dir]. *)
Definition production_accuracy_at (dir : path) (w : world) : result float :=
  previous_metrics ← read_json (dir // "metrics.json") w;
  py_float (default (VFloat (-1)) (previous_metrics !! "accuracy")).

(** The accuracy of the production slot of a configuration. *)
Definition production_accuracy (config : pydict) (w : world) : result float :=
  dir ← production_dir_of config;
  production_accuracy_at dir w.

(** The accuracy of a candidate, [float(metrics.get("accuracy", 0.0))]. *)
Definition candidate_accuracy (metrics : pydict) : result float :=
  py_float (default (VFloat 0) (metrics !! "accuracy")).

(** There is no production metrics record, or it states no accuracy. *)
Definition no_production_record (config : pydict) (w : world) : Prop :=
  ∃ dir, production_dir_of config = Ok dir ∧
    (exists_ (dir // "metrics.json") w = false ∨
     ∃ m, w_files w !! (dir // "metrics.json") = Some (FJson m) ∧ m !! "accuracy" = None).

(** The metrics record of a run states an accuracy that is a number. *)
Definition states_accuracy (metrics : pydict) : Prop :=
  ∃ v a, metrics !! "accuracy" = Some v ∧ py_float v = Ok a.
End promotion_readings.

(** The record returned by the gate. *)
Definition promotion_record (promoted : bool) (threshold previous current : float) : pydict :=
  <["promoted" := VBool promoted]> (
  <["threshold" := VFloat threshold]> (
  <["previous_accuracy" := VFloat previous]> (
  <["current_accuracy" := VFloat current]> ∅))).

(** The state of the world after a promotion: the candidate model copied
    into the production slot, the clock read once, and the metrics record
    overwritten. *)
Definition promoted_world `{!Env} (dir : path) (content : file) (metrics : pydict)
    (run_id : string) (w : world) : world :=
  let w := ensure_dir dir w in
  let w := set_files (<[dir // "model.joblib" := content]> (w_files w)) w in
  let '(now, w) := utc_now_iso w in
  write_json (dir // "metrics.json")
    (<["promoted_at" := VStr now]> (<["run_id" := VStr run_id]> metrics)) w.

(** *** Sequential runs *)

(** What a run hands to the gate. *)
Record candidate : Type := mkCandidate {
  c_model_path : path;
  c_metrics : pydict;
  c_run_id : string;
}.

Section sequential_runs.
Context `{!PyBuiltins, !Env}.

(** The candidates are offered to the gate one after the other; after
    each decision the promotion record is kept together with the accuracy
    that the production metrics record then states. *)
Fixpoint promote_all (config : pydict) (runs : list candidate) (w : world)
    : result (list (pydict * float)) :=
  match runs with
  | [] => Ok []
  | r :: rest =>
      '(promotion, w) ← maybe_promote (c_model_path r) (c_metrics r) config (c_run_id r) w;
      acc ← production_accuracy config w;
      trace ← promote_all config rest w;
      Ok ((promotion, acc) :: trace)
  end.
End sequential_runs.

(** A float that can take part in a true comparison: it is not NaN. *)
Definition ordered (x : float) : Prop := Prim2SF x ≠ S754_nan.

Definition float_le (a b : float) : Prop := (a <=? b)%float = true.

(** ** Strings *)

(** White space as [str.strip] sees it, within ASCII. *)
Definition py_isspace (c : Ascii.ascii) : bool :=
  let n := Ascii.nat_of_ascii c in
  ((9 <=? n) && (n <=? 13) || (28 <=? n) && (n <=? 32))%nat.

Fixpoint lstrip (s : string) : string :=
  match s with
  | String c s' => if py_isspace c then lstrip s' else s
  | EmptyString => EmptyString
  end.

Fixpoint rstrip (s : string) : string :=
  match s with
  | String c s' =>
      match rstrip s' with
      | EmptyString => if py_isspace c then EmptyString else String c EmptyString
      | r => String c r
      end
  | EmptyString => EmptyString
  end.

(** [s.strip()] *)
Definition strip (s : string) : string := rstrip (lstrip s).

Definition lower_ascii (c : Ascii.ascii) : Ascii.ascii :=
  let n := Ascii.nat_of_ascii c in
  if ((65 <=? n) && (n <=? 90))%nat then Ascii.ascii_of_nat (n + 32) else c.

(** [s.lower()], within ASCII. *)
Fixpoint lower (s : string) : string :=
  match s with
  | String c s' => String (lower_ascii c) (lower s')
  | EmptyString => EmptyString
  end.

(** [s.startswith(p)] *)
Definition startswith (p s : string) : bool := String.prefix p s.

(** [sub in s] *)
Fixpoint contains (sub s : string) : bool :=
  String.prefix sub s ||
  match s with
  | String _ s' => contains sub s'
  | EmptyString => false
  end.

(** ** Table operations (pandas) *)

(** [pd.isna] on a cell: the missing value and the float NaN. *)
Definition isna (c : cell) : bool :=
  match c with
  | CNa => true
  | CFloat f => is_nan f
  | _ => false
  end.

(** Equality of two cells of a column, as the hash table behind [unique]
    decides it. *)
Definition cell_eqb (a b : cell) : bool :=
  match a, b with
  | CInt x, CInt y => (x =? y)%Z
  | CFloat x, CFloat y => (x =? y)%float
  | CBool x, CBool y => Bool.eqb x y
  | CStr x, CStr y => String.eqb x y
  | _, _ => false
  end.

(** [Series.unique()] without the missing values: the first occurrence of
    every value, in order. *)
Definition unique_step (seen : list cell) (c : cell) : list cell :=
  if isna c || existsb (cell_eqb c) seen then seen else (seen ++ [c])%list.

Definition unique_values (l : list cell) : list cell := foldl unique_step [] l.

(** [y.nunique()]: the number of distinct values; missing values are not
    counted. *)
Definition nunique (y : Series) : nat := length (unique_values (s_values y)).

(** [df[name]]: the column of that name. *)
Definition df_getitem (df : DataFrame) (name : string) : option Series :=
  List.find (λ c, String.eqb (s_name c) name) (df_cols df).

(** [df.drop(columns=names, errors="ignore")] *)
Definition df_drop (names : list string) (df : DataFrame) : DataFrame :=
  mkDataFrame (df_len df)
    (List.filter (λ c, negb (bool_decide (s_name c ∈ names))) (df_cols df)).

(** The rows at the given positions. *)
Definition take_rows (idx : list nat) (l : list cell) : list cell :=
  omap (λ i, l !! i) idx.

Definition s_iloc (idx : list nat) (y : Series) : Series :=
  mkSeries (s_name y) (s_dtype y) (take_rows idx (s_values y)).

Definition df_iloc (idx : list nat) (df : DataFrame) : DataFrame :=
  mkDataFrame (length idx) (s_iloc idx <$> df_cols df).

(** A column of the kinds named by [include], for [select_dtypes]. *)
Definition dtype_included (include : list string) (dt : dtype) : bool :=
  match dt with
  | DInt64 | DFloat64 => bool_decide ("number" ∈ include)
  | DBool => bool_decide ("bool" ∈ include)
  | DObject => bool_decide ("object" ∈ include)
  | DDatetime64 => bool_decide ("datetime" ∈ include)
  | DCategory => bool_decide ("category" ∈ include)
  end.

(** [df.select_dtypes(include=...)] *)
Definition select_dtypes (include : list string) (df : DataFrame) : DataFrame :=
  mkDataFrame (df_len df) (List.filter (λ c, dtype_included include (s_dtype c)) (df_cols df)).

(** [df[name] = values]: an existing column of that name is replaced where
    it stands, otherwise the column is appended.  A table whose index is
    empty takes the length of the values; otherwise the lengths must agree. *)
Definition set_column (col : Series) (cols : list Series) : list Series :=
  if existsb (λ c, String.eqb (s_name c) (s_name col)) cols
  then (λ c, if String.eqb (s_name c) (s_name col) then col else c) <$> cols
  else (cols ++ [col])%list.

Definition df_setitem (name : string) (dt : dtype) (values : list cell) (df : DataFrame)
    : result DataFrame :=
  let col := mkSeries name dt values in
  if ((df_len df =? 0) && (0 <? length values))%nat then
    Ok (mkDataFrame (length values)
          (set_column col
             ((λ c, mkSeries (s_name c) (s_dtype c) (replicate (length values) CNa))
                <$> df_cols df)))
  else if (length values =? df_len df)%nat then
    Ok (mkDataFrame (df_len df) (set_column col (df_cols df)))
  else Raise (ValueError "Length of values does not match length of index").

(** ** Pipelines (scikit-learn objects as data) *)

Inductive transformer : Type :=
  | SimpleImputer (strategy : string)
  | StandardScaler
  | OneHotEncoder (handle_unknown : string) (sparse_output : bool).

(** [Pipeline(steps=...)] of a column group. *)
Abbreviation steps := (list (string * transformer)).

(** The preprocessing stage: the string ["passthrough"] or a
    [ColumnTransformer] with its named transformers, each on a list of
    columns, and its [remainder]. *)
Inductive preprocessor : Type :=
  | Passthrough
  | ColumnTransformer (transformers : list (string * steps * list string))
      (remainder : string).

Inductive classifier : Type :=
  | RandomForestClassifier (n_estimators random_state : Z)
  | LogisticRegression (max_iter random_state : Z).

(** [Pipeline(steps=[("preprocessor", p), ("model", m)])] *)
Record Pipeline : Type := mkPipeline {
  pp_preprocessor : preprocessor;
  pp_model : classifier;
}.

(** What scikit-learn and joblib compute.  [shuffle_split n test_size seed
    stratify] is the index computation behind [train_test_split]: the train
    and test positions among [n] rows.  [fit] fits a pipeline,
    [grid_search_fit] is [GridSearchCV(...).fit] and yields the best
    estimator, its score and its parameters; [predict_scores] yields
    accuracy and weighted precision, recall and F1 on a test set. *)
Class Sklearn := {
  fitted : Type;
  shuffle_split : nat → float → Z → option (list cell) → result (list nat * list nat);
  load_breast_cancer : DataFrame * Series;
  fit : Pipeline → DataFrame → Series → result fitted;
  grid_search_fit :
    Pipeline → pydict → Z → string → DataFrame → Series → result (fitted * float * pydict);
  predict_scores : fitted → DataFrame → Series → result (float * float * float * float);
  joblib_dumps : fitted → string;
}.


(** ** Dataset Provider *)

(** The items of [for x in v]. *)
Definition py_iter (v : pyval) : result (list pyval) :=
  match v with
  | VList l => Ok l
  | VStr s => Ok ((λ c, VStr (String c EmptyString)) <$> String.list_ascii_of_string s)
  | VDict d => Ok ((λ kv, VStr kv.1) <$> map_to_list d)
  | _ => Raise TypeError
  end.

(** [pd.read_csv(path)]; the file holds the table it parses to. *)
Definition read_csv (p : path) (w : world) : result DataFrame :=
  match w_files w !! p with
  | Some (FCsv df) => Ok df
  | Some _ => Raise ParserError
  | None => Raise IsADirectoryError
  end.

Section dataset.
Context `{!PyBuiltins, !Sklearn}.

(** [load_dataset(config)], lines 121-144. *)
Definition load_dataset (config : pydict) (w : world) : result (DataFrame * Series) :=
  dataset_cfg ← py_getitem (VDict config) "dataset";
  v ← py_get dataset_cfg "input_csv" (VStr "");
  let input_csv := strip (py_str v) in
  v ← py_get dataset_cfg "target_column" (VStr "target");
  let target_column := strip (py_str v) in
  v ← py_get dataset_cfg "drop_columns" (VList []);
  items ← py_iter v;
  let drop_columns := py_str <$> items in
  if py_bool (VStr input_csv) then
    csv_path ← Path (VStr input_csv);
    if negb (exists_ csv_path w) then
      Raise (FileNotFoundError ("Dataset CSV not found: " +:+ path_str csv_path))
    else
      df ← read_csv csv_path w;
      if negb (bool_decide (target_column ∈ columns df)) then
        Raise (ValueError ("Target column '" +:+ target_column +:+ "' not found in "
                           +:+ path_str csv_path))
      else
        match df_getitem df target_column with
        | None => Raise (KeyError target_column)
        | Some y =>
            let X := df_drop [target_column] df in
            let X := if py_bool (VList items) then df_drop drop_columns X else X in
            Ok (X, y)
        end
  else
    Ok load_breast_cancer.

(** scikit-learn's [train_test_split(X, y, test_size, random_state,
    stratify)]: both arrays are indexed by the positions that the splitter
    returns. *)
Definition train_test_split (X : DataFrame) (y : Series) (test_size : float)
    (random_state : Z) (stratify : option Series)
    : result (DataFrame * DataFrame * Series * Series) :=
  if negb (length (s_values y) =? df_len X)%nat then
    Raise (ValueError "Found input variables with inconsistent numbers of samples")
  else
    '(train, test) ← shuffle_split (df_len X) test_size random_state (s_values <$> stratify);
    Ok (df_iloc train X, df_iloc test X, s_iloc train y, s_iloc test y).

(** [split_dataset(X, y, config)], lines 147-161. *)
Definition split_dataset (X : DataFrame) (y : Series) (config : pydict)
    : result (DataFrame * DataFrame * Series * Series) :=
  dataset_cfg ← py_getitem (VDict config) "dataset";
  v ← py_get dataset_cfg "test_size" (VFloat 0.2);
  test_size ← py_float v;
  v ← py_get dataset_cfg "random_state" (VInt 42);
  random_state ← py_int v;
  train_test_split X y test_size random_state
    (if (1 <? nunique y)%nat then Some y else None).

(** What [load_dataset] reads from the [dataset] section. *)
Definition input_csv_of (dataset_cfg : pydict) : string :=
  strip (py_str (default (VStr "") (dataset_cfg !! "input_csv"))).


Definition drop_columns_of (dataset_cfg : pydict) : result (list string) :=
  match py_iter (default (VList []) (dataset_cfg !! "drop_columns")) with
  | Ok items => Ok (py_str <$> items)
  | Raise e => Raise e
  end.


End dataset.



(** ** Preprocessing Pipeline Builder *)

Section preprocessing.
Context `{!PyBuiltins}.

(** [build_preprocessor(X, config)], lines 164-191. *)
Definition build_preprocessor (X : DataFrame) (config : pydict) : result preprocessor :=
  preprocess_cfg ← py_getitem (VDict config) "preprocess";
  v ← py_get preprocess_cfg "numeric_imputer" (VStr "median");
  let num_imputer := py_str v in
  v ← py_get preprocess_cfg "categorical_imputer" (VStr "most_frequent");
  let cat_imputer := py_str v in
  v ← py_get preprocess_cfg "scale_numeric" (VBool true);
  let scale_numeric := py_bool v in
  let numeric_cols := columns (select_dtypes ["number"; "bool"] X) in
  let categorical_cols :=
    List.filter (λ c, negb (bool_decide (c ∈ numeric_cols))) (columns X) in
  let transformers : list (string * steps * list string) := [] in
  let transformers :=
    match numeric_cols with
    | [] => transformers
    | _ =>
        let numeric_steps := [("imputer", SimpleImputer num_imputer)] in
        let numeric_steps :=
          if scale_numeric then (numeric_steps ++ [("scaler", StandardScaler)])%list
          else numeric_steps in
        (transformers ++ [("numeric", numeric_steps, numeric_cols)])%list
    end in
  let transformers :=
    match categorical_cols with
    | [] => transformers
    | _ =>
        let cat_steps :=
          [("imputer", SimpleImputer cat_imputer);
           ("encoder", OneHotEncoder "ignore" false)] in
        (transformers ++ [("categorical", cat_steps, categorical_cols)])%list
    end in
  match transformers with
  | [] => Ok Passthrough
  | _ => Ok (ColumnTransformer transformers "drop")
  end.

(** What [build_preprocessor] reads from the configuration. *)
Definition numeric_steps_of (preprocess_cfg : pydict) : steps :=
  ("imputer", SimpleImputer (py_str (default (VStr "median") (preprocess_cfg !! "numeric_imputer"))))
  :: (if py_bool (default (VBool true) (preprocess_cfg !! "scale_numeric"))
      then [("scaler", StandardScaler)] else []).

Definition categorical_steps_of (preprocess_cfg : pydict) : steps :=
  [("imputer", SimpleImputer
      (py_str (default (VStr "most_frequent") (preprocess_cfg !! "categorical_imputer"))));
   ("encoder", OneHotEncoder "ignore" false)].
End preprocessing.

(** A column is numeric-like: its type is numeric or boolean. *)
Definition numeric_like (c : Series) : bool :=
  match s_dtype c with
  | DInt64 | DFloat64 | DBool => true
  | _ => false
  end.

(** The names of the numeric-like columns, and of all the others, in the
    order of the table. *)
Definition numeric_group (X : DataFrame) : list string :=
  s_name <$> List.filter numeric_like (df_cols X).

Definition categorical_group (X : DataFrame) : list string :=
  s_name <$> List.filter (λ c, negb (numeric_like c)) (df_cols X).

(** The transform of a group of columns; none for an empty group. *)
Definition group_transform (name : string) (st : steps) (cols : list string)
    : list (string * steps * list string) :=
  match cols with [] => [] | _ => [(name, st, cols)] end.

(** ** Model Trainer *)

Section training.
Context `{!PyBuiltins, !Sklearn}.

(** [build_model(config)], lines 194-201. *)
Definition build_model (config : pydict) : result classifier :=
  model_cfg ← py_getitem (VDict config) "model";
  v ← py_get model_cfg "type" (VStr "random_forest");
  let model_type := lower (strip (py_str v)) in
  dataset_cfg ← py_getitem (VDict config) "dataset";
  v ← py_get dataset_cfg "random_state" (VInt 42);
  seed ← py_int v;
  if String.eqb model_type "random_forest" then Ok (RandomForestClassifier 200 seed)
  else if String.eqb model_type "logistic_regression" then Ok (LogisticRegression 2000 seed)
  else Raise (ValueError ("Unsupported model type: " +:+ model_type)).

(** [default_param_grid(model_type)], lines 204-216. *)
Definition default_param_grid (model_type : string) : pydict :=
  if String.eqb model_type "random_forest" then
    <["model__n_estimators" := VList [VInt 100; VInt 200; VInt 300]]> (
    <["model__max_depth" := VList [VNone; VInt 10; VInt 20]]> (
    <["model__min_samples_split" := VList [VInt 2; VInt 5]]> ∅))
  else if String.eqb model_type "logistic_regression" then
    <["model__C" := VList [VFloat 0.1; VFloat 1.0; VFloat 10.0]]> (
    <["model__solver" := VList [VStr "lbfgs"; VStr "liblinear"]]> ∅)
  else ∅.

(** The key under which [normalize_param_grid] stores an item. *)
Definition normalize_key (key : string) : string :=
  if contains "__" key then key else "model__" +:+ key.

(** The loop of [normalize_param_grid] over the items in the order in which
    the dictionary yields them. *)
Definition normalize_put (normalized : pydict) (kv : string * pyval) : pydict :=
  <[normalize_key kv.1 := kv.2]> normalized.

Definition normalize_items (items : list (string * pyval)) : pydict :=
  foldl normalize_put ∅ items.

(** [normalize_param_grid(raw_grid)], lines 219-226. *)
Definition normalize_param_grid (raw_grid : pyval) : result pydict :=
  match raw_grid with
  | VDict d => Ok (normalize_items (map_to_list d))
  | _ => Raise AttributeError
  end.

(** The model type as [train_model] and [build_model] read it. *)
Definition model_type_of (config : pydict) : result string :=
  model_cfg ← py_getitem (VDict config) "model";
  v ← py_get model_cfg "type" (VStr "random_forest");
  Ok (lower (strip (py_str v))).

(** Lines 243-244 of [train_model]: the configured grid, or [{}] when
    there is none, and the grid that is used: the configured one,
    normalised, or else the default grid of the model type. *)
Definition resolve_grid (hpo_cfg : pyval) (model_type : string) : result (pyval * pydict) :=
  v ← py_get hpo_cfg "param_grid" VNone;
  let configured_grid := if py_bool v then v else VDict ∅ in
  grid ← (if py_bool configured_grid then normalize_param_grid configured_grid
          else Ok (default_param_grid model_type));
  Ok (configured_grid, grid).

(** Lines 248-269 of [train_model]: a direct fit when the grid is empty,
    the cross-validated search otherwise, each with its report. *)
Definition fit_or_search (estimator : Pipeline) (configured_grid : pyval) (grid : pydict)
    (cv_folds : Z) (scoring : string) (X_train : DataFrame) (y_train : Series)
    : result (fitted * pydict) :=
  if negb (py_bool (VDict grid)) then
    est ← fit estimator X_train y_train;
    Ok (est, <["enabled" := VBool true]> (
             <["used_default_grid" := VBool false]> (
             <["best_params" := VDict ∅]> ∅)))
  else
    '(best_estimator, best_score, best_params) ←
      grid_search_fit estimator grid cv_folds scoring X_train y_train;
    Ok (best_estimator,
        <["enabled" := VBool true]> (
        <["used_default_grid" := VBool (negb (py_bool configured_grid))]> (
        <["cv_folds" := VInt cv_folds]> (
        <["scoring" := VStr scoring]> (
        <["best_score" := VFloat best_score]> (
        <["best_params" := VDict best_params]> ∅)))))).

(** [train_model(X_train, y_train, config)], lines 229-269. *)
Definition train_model (X_train : DataFrame) (y_train : Series) (config : pydict)
    : result (fitted * pydict) :=
  model_type ← model_type_of config;
  preprocessor ← build_preprocessor X_train config;
  model ← build_model config;
  let estimator := mkPipeline preprocessor model in
  hpo_cfg ← py_getitem (VDict config) "hpo";
  v ← py_get hpo_cfg "enabled" (VBool true);
  if negb (py_bool v) then
    est ← fit estimator X_train y_train;
    Ok (est, <["enabled" := VBool false]> ∅)
  else
    '(configured_grid, grid) ← resolve_grid hpo_cfg model_type;
    v ← py_get hpo_cfg "cv_folds" (VInt 3);
    cv_folds ← py_int v;
    v ← py_get hpo_cfg "scoring" (VStr "f1_weighted");
    let scoring := py_str v in
    fit_or_search estimator configured_grid grid cv_folds scoring X_train y_train.

(** What [train_model] reads from the [hpo] section. *)
Definition hpo_enabled (hpo_cfg : pydict) : bool :=
  py_bool (default (VBool true) (hpo_cfg !! "enabled")).

Definition cv_folds_of (hpo_cfg : pydict) : result Z :=
  py_int (default (VInt 3) (hpo_cfg !! "cv_folds")).

Definition scoring_of (hpo_cfg : pydict) : string :=
  py_str (default (VStr "f1_weighted") (hpo_cfg !! "scoring")).

(** The report of a search, and of a fit without search on an empty grid. *)
Definition search_report (used_default_grid : bool) (cv_folds : Z) (scoring : string)
    (best_score : float) (best_params : pydict) : pydict :=
  <["enabled" := VBool true]> (
  <["used_default_grid" := VBool used_default_grid]> (
  <["cv_folds" := VInt cv_folds]> (
  <["scoring" := VStr scoring]> (
  <["best_score" := VFloat best_score]> (
  <["best_params" := VDict best_params]> ∅))))).


(** [evaluate_model(model, X_test, y_test)], lines 272-281. *)
Definition evaluate_model (model : fitted) (X_test : DataFrame) (y_test : Series)
    : result pydict :=
  '(accuracy, precision, recall, f1) ← predict_scores model X_test y_test;
  Ok (<["accuracy" := VFloat accuracy]> (
      <["precision_weighted" := VFloat precision]> (
      <["recall_weighted" := VFloat recall]> (
      <["f1_weighted" := VFloat f1]> (
      <["rows_tested" := VInt (Z.of_nat (length (s_values y_test)))]> ∅))))).
End training.

(** ** Artifact & Run Manager *)

(** [df.to_csv(path, index=False)]; the file holds the table. *)
Definition to_csv (p : path) (df : DataFrame) (w : world) : world :=
  set_files (<[p := FCsv df]> (w_files w)) w.

(** [save_preprocess_snapshot(X_train, X_test, y_train, y_test, run_dir)],
    lines 284-309. *)
Definition save_preprocess_snapshot (X_train X_test : DataFrame) (y_train y_test : Series)
    (run_dir : path) (w : world) : result (pydict * world) :=
  let preprocessed_dir := run_dir // "preprocessed" in
  let w := ensure_dir preprocessed_dir w in
  train_df ← df_setitem "target" (s_dtype y_train) (s_values y_train) X_train;
  test_df ← df_setitem "target" (s_dtype y_test) (s_values y_test) X_test;
  let train_csv := preprocessed_dir // "train.csv" in
  let test_csv := preprocessed_dir // "test.csv" in
  let w := to_csv train_csv train_df w in
  let w := to_csv test_csv test_df w in
  Ok (<["train_csv" := VStr (path_str train_csv)]> (
      <["test_csv" := VStr (path_str test_csv)]> (
      <["train_rows" := VInt (Z.of_nat (df_len train_df))]> (
      <["test_rows" := VInt (Z.of_nat (df_len test_df))]> ∅))), w).

(** The table [df] is [X] with the values of [y] under the name "target":
    the rows and all columns of other names are those of [X], every column
    called "target" is the label, which is appended when [X] has no such
    column and stands in its place, under unchanged column names, when [X]
    has one. *)
Definition labelled (X : DataFrame) (y : Series) (df : DataFrame) : Prop :=
  let label := mkSeries "target" (s_dtype y) (s_values y) in
  df_len df = df_len X
  ∧ df_getitem df "target" = Some label
  ∧ (∀ c, c ∈ df_cols df → s_name c = "target" → c = label)
  ∧ (∀ name, name ≠ "target" → df_getitem df name = df_getitem X name)
  ∧ ("target" ∉ columns X → df_cols df = (df_cols X ++ [label])%list)
  ∧ ("target" ∈ columns X → columns df = columns X).

(** The text of a number printed with four decimals is not part of the
    module either. *)
Class Formatting := { format_4f : float → string }.

Section run.
Context `{!PyBuiltins, !Env, !Sklearn, !Formatting}.

(** [f"{v:.4f}"] *)
Definition py_format_4f (v : pyval) : result string :=
  match v with
  | VFloat f => Ok (format_4f f)
  | VInt z => f ← float_of_Z z; Ok (format_4f f)
  | VBool b => Ok (format_4f (if b then 1 else 0)%float)
  | _ => Raise TypeError
  end.

(** [write_summary_markdown(path, summary)], lines 380-395. *)
Definition write_summary_markdown (p : path) (summary : pydict) (w : world) : result world :=
  run_id ← py_getitem (VDict summary) "run_id";
  created_at ← py_getitem (VDict summary) "created_at";
  reason ← py_getitem (VDict summary) "reason";
  metrics ← py_getitem (VDict summary) "metrics";
  accuracy ← py_getitem metrics "accuracy";
  accuracy ← py_format_4f accuracy;
  metrics ← py_getitem (VDict summary) "metrics";
  f1 ← py_getitem metrics "f1_weighted";
  f1 ← py_format_4f f1;
  promotion ← py_getitem (VDict summary) "promotion";
  promoted ← py_getitem promotion "promoted";
  artifacts ← py_getitem (VDict summary) "artifacts";
  run_dir ← py_getitem artifacts "run_dir";
  artifacts ← py_getitem (VDict summary) "artifacts";
  model_path ← py_getitem artifacts "model_path";
  let lines :=
    [ "# ML Run " +:+ py_str run_id;
      "";
      "- Created: " +:+ py_str created_at;
      "- Reason: " +:+ py_str reason;
      "- Accuracy: " +:+ accuracy;
      "- F1 (weighted): " +:+ f1;
      "- Promoted: " +:+ py_str promoted;
      "";
      "## Artifacts";
      "- Run dir: `" +:+ py_str run_dir +:+ "`";
      "- Model: `" +:+ py_str model_path +:+ "`" ] in
  let w := ensure_dir (parent p) w in
  Ok (set_files (<[p := FText (String.concat (String "010"%char EmptyString) lines
                                 +:+ String "010"%char EmptyString)]> (w_files w)) w).

(** [run_pipeline(config, reason)], lines 341-377. *)
Definition run_pipeline (config : pydict) (reason : string) (w : world)
    : result (pydict * world) :=
  artifacts ← py_getitem (VDict config) "artifacts";
  base ← py_getitem artifacts "base_dir";
  base_dir ← Path base;
  let '(run_id, w) := make_run_id w in
  let run_dir := base_dir // "runs" // run_id in
  let w := ensure_dir run_dir w in
  '(X, y) ← load_dataset config w;
  '(X_train, X_test, y_train, y_test) ← split_dataset X y config;
  '(preprocess_report, w) ← save_preprocess_snapshot X_train X_test y_train y_test run_dir w;
  '(model, hpo_report) ← train_model X_train y_train config;
  metrics ← evaluate_model model X_test y_test;
  let model_path := run_dir // "model.joblib" in
  let w := set_files (<[model_path := FBytes (joblib_dumps model)]> (w_files w)) w in
  let w := write_json (run_dir // "metrics.json") metrics w in
  let w := write_json (run_dir // "hpo.json") hpo_report w in
  '(promotion, w) ← maybe_promote model_path metrics config run_id w;
  let '(created_at, w) := utc_now_iso w in
  let run_summary : pydict :=
    <["run_id" := VStr run_id]> (
    <["reason" := VStr reason]> (
    <["created_at" := VStr created_at]> (
    <["metrics" := VDict metrics]> (
    <["hpo" := VDict hpo_report]> (
    <["preprocess" := VDict preprocess_report]> (
    <["promotion" := VDict promotion]> (
    <["artifacts" := VDict (
        <["run_dir" := VStr (path_str run_dir)]> (
        <["model_path" := VStr (path_str model_path)]> ∅))]> ∅))))))) in
  let w := write_json (run_dir // "summary.json") run_summary w in
  w ← write_summary_markdown (run_dir // "summary.md") run_summary w;
  let w := write_json (base_dir // "latest_run.json") run_summary w in
  Ok (run_summary, w).

(** ** Configuration file and HTTP trigger *)

(** [load_config(config_path)], lines 87-92; the file holds the document
    that [yaml.safe_load] parses it to. *)
Definition load_config (config_path : path) (w : world) : result pydict :=
  if negb (exists_ config_path w) then
    Raise (FileNotFoundError ("Config file not found: " +:+ path_str config_path))
  else
    match w_files w !! config_path with
    | Some (FYaml doc) =>
        let loaded := if py_bool doc then doc else VDict ∅ in
        match loaded with
        | VDict override => Ok (deep_merge DEFAULT_CONFIG override)
        | _ => Raise AttributeError
        end
    | _ => Raise ParserError
    end.
End run.

(** The part of [s] after its first space: [s.split(" ", 1)[1]]. *)
Fixpoint after_first_space (s : string) : result string :=
  match s with
  | String c s' => if Ascii.eqb c " "%char then Ok s' else after_first_space s'
  | EmptyString => Raise IndexError
  end.

(** [authorize(authorization, token_required)], lines 573-582.  A missing
    header is [None]. *)
Definition authorize (authorization : option string) (token_required : string)
    : result unit :=
  if negb (py_bool (VStr token_required)) then Ok ()
  else
    match authorization with
    | None => Raise (HTTPException 401 "Missing Authorization header")
    | Some authorization =>
        if negb (py_bool (VStr authorization)) then
          Raise (HTTPException 401 "Missing Authorization header")
        else if negb (startswith "Bearer " authorization) then
          Raise (HTTPException 401 "Authorization must use Bearer token")
        else
          rest ← after_first_space authorization;
          let token := strip rest in
          if negb (String.eqb token token_required) then
            Raise (HTTPException 403 "Invalid bearer token")
          else Ok ()
    end.

Section api.
Context `{!PyBuiltins, !Env, !Sklearn, !Formatting}.

(** The handler of [POST /train], lines 588-594, for the application
    created on [config_path]. *)
Definition trigger_train (config_path : path) (authorization : option string) (w : world)
    : result (pydict * world) :=
  cfg ← load_config config_path w;
  api ← py_get (VDict cfg) "api" (VDict ∅);
  v ← py_get api "bearer_token" (VStr "");
  let token_required := strip (py_str v) in
  _ ← authorize authorization token_required;
  '(summary, w) ← run_pipeline cfg "api" w;
  run_id ← py_getitem (VDict summary) "run_id";
  metrics ← py_getitem (VDict summary) "metrics";
  Ok (<["ok" := VBool true]> (<["run_id" := run_id]> (<["metrics" := metrics]> ∅)), w).

(** The bearer token that the handler requires. *)
Definition token_required_of (cfg : pydict) : result string :=
  api ← py_get (VDict cfg) "api" (VDict ∅);
  v ← py_get api "bearer_token" (VStr "");
  Ok (strip (py_str v)).
End api.

(** ** Partial runs *)

Section partial_runs.
Context `{!PyBuiltins, !Env, !Sklearn}.


End partial_runs.

(** *** What a full run writes *)

(** The directory of the run that starts in [w] under the base directory
    [s]. *)
Definition run_dir_of `{!Env} (s : string) (w : world) : path :=
  [s] // "runs" // (make_run_id w).1.

(** The world in which a run starts its work: the identifier is taken and
    the run directory exists. *)
Definition run_started `{!Env} (s : string) (w : world) : world :=
  ensure_dir (run_dir_of s w) (make_run_id w).2.

(** The world after the model, the metrics and the search report of a run
    are written (lines 354-357). *)
Definition run_staged `{!Sklearn} (run_dir : path) (model : fitted)
    (metrics hpo_report : pydict) (w : world) : world :=
  write_json (run_dir // "hpo.json") hpo_report (
  write_json (run_dir // "metrics.json") metrics (
  set_files (<[run_dir // "model.joblib" := FBytes (joblib_dumps model)]> (w_files w)) w)).

(** The summary of a run (lines 360-372). *)
Definition run_summary_record (run_id reason created_at : string)
    (metrics hpo_report preprocess_report promotion : pydict) (run_dir : path) : pydict :=
  <["run_id" := VStr run_id]> (
  <["reason" := VStr reason]> (
  <["created_at" := VStr created_at]> (
  <["metrics" := VDict metrics]> (
  <["hpo" := VDict hpo_report]> (
  <["preprocess" := VDict preprocess_report]> (
  <["promotion" := VDict promotion]> (
  <["artifacts" := VDict (
      <["run_dir" := VStr (path_str run_dir)]> (
      <["model_path" := VStr (path_str (run_dir // "model.joblib"))]> ∅))]> ∅))))))).

(** The world after the summary is written as JSON, as text and as the
    latest run (lines 373-375). *)
Definition run_recorded (base_dir run_dir : path) (summary : pydict) (text : string)
    (w : world) : world :=
  let w := write_json (run_dir // "summary.json") summary w in
  let w := ensure_dir (parent (run_dir // "summary.md")) w in
  let w := set_files (<[run_dir // "summary.md" := FText text]> (w_files w)) w in
  write_json (base_dir // "latest_run.json") summary w.

(** ** Example data *)

(** Stand-ins for the text conversions and for the clock, used to run the
    definitions on concrete inputs. *)
Definition demo_builtins : PyBuiltins :=
  {| repr := λ _, "?"; float_of_str := λ _, None; int_of_str := λ _, None |}.

Definition demo_env : Env :=
  {| clock_iso := λ n, "2026-01-01T00:00:0" +:+ pretty n +:+ "+00:00";
     clock_stamp := λ n, "20260101-00000" +:+ pretty n;
     uuid4_hex := λ n, "0123456789abcdef0123456789abcde" +:+ pretty n |}.

(** The metrics record of a run with the given accuracy, as
    [evaluate_model] builds it. *)
Definition demo_metrics (accuracy : float) : pydict :=
  <["accuracy" := VFloat accuracy]> (
  <["precision_weighted" := VFloat accuracy]> (
  <["recall_weighted" := VFloat accuracy]> (
  <["f1_weighted" := VFloat accuracy]> (
  <["rows_tested" := VInt 114]> ∅)))).

Definition demo_model_path (run : string) : path :=
  ["ml/artifacts"; "runs"; run; "model.joblib"].

(** Three runs have written their models; nothing was promoted yet. *)
Definition demo_world : world :=
  mkWorld (<[demo_model_path "r1" := FBytes "model-1"]> (
           <[demo_model_path "r2" := FBytes "model-2"]> (
           <[demo_model_path "r3" := FBytes "model-3"]> ∅))) ∅ 0.

(** The runs of the scenario: accuracies 0.90, 0.80 and 0.95. *)
Definition demo_runs : list candidate :=
  [ mkCandidate (demo_model_path "r1") (demo_metrics 0.90) "r1";
    mkCandidate (demo_model_path "r2") (demo_metrics 0.80) "r2";
    mkCandidate (demo_model_path "r3") (demo_metrics 0.95) "r3" ].

(** The world after the first run of the scenario was promoted. *)
Definition demo_world_promoted : world :=
  @promoted_world demo_env ["ml/artifacts"; "production"] (FBytes "model-1")
    (demo_metrics 0.90) "r1" demo_world.

(** A stand-in for scikit-learn: the first row is the test set, the model
    is a label, and every score is 0.9. *)
Definition demo_sklearn : Sklearn :=
  {| fitted := string;
     shuffle_split := λ n _ _ _,
       match n with
       | O => Raise (ValueError "n_samples=0")
       | S m => Ok (seq 1 m, [0])
       end;
     load_breast_cancer := (mkDataFrame 0 [], mkSeries "target" DInt64 []);
     fit := λ _ _ _, Ok "fitted";
     grid_search_fit := λ _ grid _ _ _ _, Ok ("best", 0.9%float, grid);
     predict_scores := λ _ _ _, Ok (0.9, 0.9, 0.9, 0.9)%float;
     joblib_dumps := λ m, m |}.

(** A table of three rows: a numeric feature, a text feature and a column
    that happens to be called "target"; and its label. *)
Definition demo_table : DataFrame :=
  mkDataFrame 3
    [ mkSeries "age" DInt64 [CInt 31; CInt 45; CInt 27];
      mkSeries "city" DObject [CStr "Oslo"; CStr "Rome"; CNa];
      mkSeries "target" DFloat64 [CFloat 0.5; CFloat 1.5; CFloat 2.5];
      mkSeries "label" DInt64 [CInt 1; CInt 0; CInt 1] ].

(** The [preprocess] section of the default configuration. *)
Definition demo_preprocess_cfg : pydict :=
  <["numeric_imputer" := VStr "median"]> (
  <["categorical_imputer" := VStr "most_frequent"]> (
  <["scale_numeric" := VBool true]> ∅)).

Definition demo_features : DataFrame := df_drop ["label"] demo_table.

Definition demo_label : Series := mkSeries "label" DInt64 [CInt 1; CInt 0; CInt 1].

(** A configuration file that names an input table, its label and a column
    to drop; the path and the label are written with surrounding blanks. *)
Definition demo_override : pydict :=
  <["dataset" := VDict (
      <["input_csv" := VStr " data/train.csv "]> (
      <["target_column" := VStr "label "]> (
      <["drop_columns" := VList [VStr "city"]]> ∅)))]> (
  <["api" := VDict (<["bearer_token" := VStr "s3cret"]> ∅)]> ∅).

Definition demo_dataset_cfg : pydict :=
  <["input_csv" := VStr " data/train.csv "]> (
  <["target_column" := VStr "label "]> (
  <["drop_columns" := VList [VStr "city"]]> (
  <["test_size" := VFloat 0.2]> (
  <["random_state" := VInt 42]> ∅)))).

Definition demo_config : pydict :=
  <["dataset" := VDict demo_dataset_cfg]> (
  <["api" := VDict (<["bearer_token" := VStr "s3cret"]> ∅)]> DEFAULT_CONFIG).

(** The configuration file and the input table are on disk. *)
Definition demo_disk : world :=
  mkWorld (<[["ml/config.yaml"] := FYaml (VDict demo_override)]> (
           <[["data/train.csv"] := FCsv demo_table]> ∅)) ∅ 0.

Definition demo_formatting : Formatting := {| format_4f := λ _, "0.9000" |}.

(** The response of the train endpoint for a run summary. *)
Definition train_response (run_id metrics : pyval) : pydict :=
  <["ok" := VBool true]> (<["run_id" := run_id]> (<["metrics" := metrics]> ∅)).

(** A configuration that selects logistic regression and configures a grid
    with one bare name and one namespaced name. *)
Definition demo_grid : pydict :=
  <["C" := VList [VFloat 0.1; VFloat 1.0]]> (
  <["model__solver" := VList [VStr "lbfgs"]]> ∅).

Definition demo_hpo_cfg : pydict :=
  <["enabled" := VBool true]> (
  <["cv_folds" := VInt 3]> (
  <["scoring" := VStr "f1_weighted"]> (
  <["param_grid" := VDict demo_grid]> ∅))).

Definition demo_grid_config : pydict :=
  <["model" := VDict (<["type" := VStr " Logistic_Regression"]> ∅)]> (
  <["hpo" := VDict demo_hpo_cfg]> DEFAULT_CONFIG).

(** The preprocessor of the example features. *)
Definition demo_preprocessor : preprocessor :=
  ColumnTransformer
    [ ("numeric", [("imputer", SimpleImputer "median"); ("scaler", StandardScaler)],
       ["age"; "target"]);
      ("categorical", [("imputer", SimpleImputer "most_frequent");
                       ("encoder", OneHotEncoder "ignore" false)], ["city"]) ]
    "drop".


(** The metrics of the example model on the example table. *)
Definition demo_eval_metrics : pydict :=
  <["accuracy" := VFloat 0.9]> (
  <["precision_weighted" := VFloat 0.9]> (
  <["recall_weighted" := VFloat 0.9]> (
  <["f1_weighted" := VFloat 0.9]> (
  <["rows_tested" := VInt 3]> ∅)))).

(** Whether a computation returned. *)
Definition is_ok {A} (r : result A) : bool :=
  match r with Ok _ => true | Raise _ => false end.

(** A full run, a preprocessing run and a search run on the example disk. *)
Definition demo_run : pydict * world :=
  match @run_pipeline demo_builtins demo_env demo_sklearn demo_formatting
          demo_config "manual" demo_disk with
  | Ok r => r
  | Raise _ => (∅, demo_disk)
  end.



(** A disk whose configuration file has no [api] section. *)
Definition demo_open_override : pydict := <["dataset" := VDict demo_dataset_cfg]> ∅.

Definition demo_open_disk : world :=
  mkWorld (<[["ml/config.yaml"] := FYaml (VDict demo_open_override)]> (
           <[["data/train.csv"] := FCsv demo_table]> ∅)) ∅ 0.

(** * Properties *)

(** ** Config Resolver *)

Section deep_merge_facts.
Implicit Types (base override d o : pydict) (v : pyval) (k : string).
Local Arguments deep_merge_val : simpl never.

Lemma pyval_size_lookup d k v :
  d !! k = Some v → (pyval_size v < pyval_size (VDict d))%nat.
Proof.
  intros Hk. simpl.
  rewrite <-(insert_delete_id d k v Hk).
  rewrite map_fold_insert_L; [lia | intros; lia | apply lookup_delete_eq].
Qed.

Lemma deep_merge_lookup base override k :
  deep_merge base override !! k =
    match override !! k with
    | None => base !! k
    | Some value => Some (merge_entry (base !! k) value)
    end.
Proof.
  unfold deep_merge. cbn [deep_merge_val]. revert k.
  apply (map_fold_weak_ind (λ out items, ∀ k, out !! k =
    match items !! k with
    | None => base !! k
    | Some value => Some (merge_entry (base !! k) value)
    end)).
  - intros k. by rewrite lookup_empty.
  - intros i x m r Hi IH k.
    assert (Hr : r !! i = base !! i) by (by rewrite IH, Hi).
    rewrite Hr. destruct (decide (i = k)) as [->|Hne].
    + rewrite lookup_insert_eq. unfold merge_entry.
      destruct (base !! k) as [[]|], x; by rewrite lookup_insert_eq.
    + rewrite (lookup_insert_ne m) by done.
      destruct (base !! i) as [[]|], x; rewrite lookup_insert_ne by done; apply IH.
Qed.

Lemma deep_merge_val_dict base o : deep_merge_val base (VDict o) = deep_merge base o.
Proof. done. Qed.

Lemma deep_merge_self_n (n : nat) d : (pyval_size (VDict d) ≤ n)%nat → deep_merge d d = d.
Proof.
  revert d. induction n as [|n IH]; intros d Hn; [simpl in Hn; lia|].
  apply map_eq. intros k. rewrite deep_merge_lookup.
  destruct (d !! k) as [v|] eqn:Hk; [|done].
  pose proof (pyval_size_lookup _ _ _ Hk).
  destruct v; simpl; try done.
  rewrite deep_merge_val_dict, IH; [done | lia].
Qed.

Lemma deep_merge_self d : deep_merge d d = d.
Proof. by apply (deep_merge_self_n (pyval_size (VDict d))). Qed.

Lemma deep_merge_twice_n (n : nat) base o :
  (pyval_size (VDict o) ≤ n)%nat →
  deep_merge (deep_merge base o) o = deep_merge base o.
Proof.
  revert base o. induction n as [|n IH]; intros base o Hn; [simpl in Hn; lia|].
  apply map_eq. intros k. rewrite !deep_merge_lookup.
  destruct (o !! k) as [v|] eqn:Hk; [|done].
  pose proof (pyval_size_lookup _ _ _ Hk).
  f_equal. destruct v; try by destruct (base !! k) as [[]|].
  destruct (base !! k) as [[]|]; simpl;
    rewrite ?deep_merge_val_dict, ?deep_merge_self; try done.
  rewrite IH; [done | lia].
Qed.

Lemma get_path_deep_merge path : ∀ base o v,
  get_path path (VDict base) = Some v →
  unspecified path o →
  get_path path (VDict (deep_merge base o)) = Some v.
Proof.
  induction path as [|k rest IH]; intros base o v Hget Hun; [done|].
  simpl in *. rewrite deep_merge_lookup.
  destruct (o !! k) as [ov|] eqn:Ho; [|done].
  destruct ov; try done.
  destruct (base !! k) as [bv|] eqn:Hb; [|done]. simpl in *.
  destruct rest as [|k' rest']; [done|].
  destruct bv; try done. simpl.
  apply (IH _ _ _ Hget Hun).
Qed.
End deep_merge_facts.

(** C4. Applying the same override a second time changes nothing, and a
    default reachable along a path of keys that the override does not
    specify (the override lacks the key at some level of nesting, with
    mappings above it) is found unchanged along the same path of the merged
    configuration; in particular every top-level key of the defaults that
    the override lacks keeps its default value. *)
Theorem deep_merge_idempotent_keeps_defaults (defaults override : pydict) :
  deep_merge (deep_merge defaults override) override = deep_merge defaults override
  ∧ (∀ key, override !! key = None →
       deep_merge defaults override !! key = defaults !! key)
  ∧ (∀ path v, get_path path (VDict defaults) = Some v →
       unspecified path override →
       get_path path (VDict (deep_merge defaults override)) = Some v).
Proof.
  split_and!.
  - by apply (deep_merge_twice_n (pyval_size (VDict override))).
  - intros key Hk. by rewrite deep_merge_lookup, Hk.
  - intros path v. apply get_path_deep_merge.
Qed.

(** ** Order on binary64 floats *)

Section float_order.
Local Open Scope float_scope.

Lemma SFleb_trans (a b c : spec_float) :
  SFleb a b = true → SFleb b c = true → SFleb a c = true.
Proof.
  unfold SFleb, SFcompare.
  destruct a as [sa|sa| |sa ma ea], b as [sb|sb| |sb mb eb], c as [sc|sc| |sc mc ec];
    try destruct sa; try destruct sb; try destruct sc; simpl; try done.
  all: destruct (Z.compare_spec ea eb) as [?|?|?];
       destruct (Z.compare_spec eb ec) as [?|?|?];
       destruct (Z.compare_spec ea ec) as [?|?|?]; try lia; try done.
  all: rewrite <-?Pos.compare_cont_spec; fold (Pos.compare ma mb);
       fold (Pos.compare mb mc); fold (Pos.compare ma mc).
  all: destruct (Pos.compare_spec ma mb); destruct (Pos.compare_spec mb mc);
       destruct (Pos.compare_spec ma mc); simpl; try lia; try done.
Qed.

Lemma SFleb_refl (a : spec_float) : a ≠ S754_nan → SFleb a a = true.
Proof.
  unfold SFleb, SFcompare. destruct a as [s|s| |s m e]; try done.
  - by destruct s.
  - intros _. destruct s; rewrite Z.compare_refl;
      change (Pos.compare_cont Eq m m) with (Pos.compare m m);
      by rewrite Pos.compare_refl.
Qed.

Lemma SFleb_not_nan (a b : spec_float) :
  SFleb a b = true → a ≠ S754_nan ∧ b ≠ S754_nan.
Proof.
  unfold SFleb, SFcompare.
  destruct a as [| | |], b as [| | |]; simpl; try done.
Qed.

Lemma float_le_trans (a b c : float) :
  (a <=? b) = true → (b <=? c) = true → (a <=? c) = true.
Proof. rewrite !leb_spec. apply SFleb_trans. Qed.

Lemma float_le_refl (a : float) : ordered a → (a <=? a) = true.
Proof. rewrite leb_spec. apply SFleb_refl. Qed.

Lemma float_le_ordered (a b : float) : (a <=? b) = true → ordered a ∧ ordered b.
Proof. rewrite leb_spec. apply SFleb_not_nan. Qed.
End float_order.

(** ** Promotion Gate *)

Section promotion_facts.
Context `{!PyBuiltins, !Env}.
Implicit Types (config metrics promotion : pydict) (w : world) (dir d q : path).
Local Open Scope float_scope.

Lemma path_div_ne dir name : dir // name ≠ dir.
Proof.
  unfold path_div. intros Heq. apply (f_equal length) in Heq.
  rewrite length_app in Heq. simpl in Heq. lia.
Qed.

Lemma exists_ensure_dir q d w : q ≠ d → exists_ q (ensure_dir d w) = exists_ q w.
Proof.
  intros Hne. unfold exists_, ensure_dir. simpl. f_equal.
  apply bool_decide_ext. rewrite elem_of_union, elem_of_singleton.
  split; [by intros [?|?] | by right].
Qed.

Lemma exists_file q w content : w_files w !! q = Some content → exists_ q w = true.
Proof.
  intros Hq. unfold exists_. apply orb_true_intro. left.
  apply bool_decide_eq_true_2. eauto.
Qed.

Lemma read_json_ensure_dir q d w : q ≠ d → read_json q (ensure_dir d w) = read_json q w.
Proof. intros Hne. unfold read_json. by rewrite exists_ensure_dir. Qed.

Lemma production_accuracy_at_ensure_dir dir w :
  production_accuracy_at dir (ensure_dir dir w) = production_accuracy_at dir w.
Proof.
  unfold production_accuracy_at. rewrite read_json_ensure_dir; [done|apply path_div_ne].
Qed.

(** The gate, as a function of what it reads. *)
Lemma maybe_promote_eq model_path metrics config run_id w :
  maybe_promote model_path metrics config run_id w =
    (dir ← production_dir_of config;
     t ← threshold_of config;
     p ← production_accuracy_at dir w;
     c ← candidate_accuracy metrics;
     if float_ge c t && float_ge c p then
       match w_files w !! model_path with
       | Some content =>
           Ok (promotion_record true t p c, promoted_world dir content metrics run_id w)
       | None => Raise (FileNotFoundError (path_str model_path))
       end
     else Ok (promotion_record false t p c, ensure_dir dir w)).
Proof.
  unfold maybe_promote, production_dir_of, threshold_of, candidate_accuracy.
  unfold mbind, result_bind. simpl.
  destruct (config !! "artifacts") as [artifacts|]; simpl; [|done].
  destruct (py_getitem artifacts "base_dir") as [base|]; simpl; [|done].
  destruct (Path base) as [base_dir|]; simpl; [|done].
  destruct (config !! "training") as [training|]; simpl; [|done].
  destruct (py_get training _ _) as [t|]; simpl; [|done].
  destruct (py_float t) as [threshold|]; simpl; [|done].
  rewrite <-(production_accuracy_at_ensure_dir (base_dir // "production") w).
  unfold production_accuracy_at at 1. unfold mbind, result_bind. simpl.
  destruct (read_json _ _) as [previous_metrics|]; simpl; [|done].
  destruct (py_float (default _ (previous_metrics !! _))) as [previous|]; simpl; [|done].
  destruct (py_float (default _ (metrics !! _))) as [current|]; simpl; [|done].
  destruct (float_ge current threshold && float_ge current previous); simpl; [|done].
  unfold copy2. simpl.
  destruct (w_files w !! model_path) as [content|]; simpl; done.
Qed.
Lemma promotion_record_promoted b t p c :
  promotion_record b t p c !! "promoted" = Some (VBool b).
Proof. unfold promotion_record. by rewrite lookup_insert_eq. Qed.

Lemma production_accuracy_eq config w dir :
  production_dir_of config = Ok dir →
  production_accuracy config w = production_accuracy_at dir w.
Proof. unfold production_accuracy. by intros ->. Qed.

Lemma production_accuracy_dir config w p :
  production_accuracy config w = Ok p →
  ∃ dir, production_dir_of config = Ok dir ∧ production_accuracy_at dir w = Ok p.
Proof.
  unfold production_accuracy. destruct (production_dir_of config) as [dir|]; [|done].
  intros Hp. by exists dir.
Qed.

(** Without a production record the previous accuracy is the sentinel. *)
Lemma no_production_record_sentinel config w p :
  no_production_record config w → production_accuracy config w = Ok p → p = -1.
Proof.
  intros (dir & Hdir & Hrec). rewrite (production_accuracy_eq _ _ _ Hdir).
  unfold production_accuracy_at, read_json.
  destruct Hrec as [Hno|(m & Hm & Hacc)].
  - rewrite Hno. simpl. rewrite lookup_empty. simpl. by intros [= <-].
  - rewrite (exists_file _ _ _ Hm), Hm. simpl. rewrite Hacc. simpl.
    by intros [= <-].
Qed.

(** After a promotion the production record states the candidate's accuracy. *)
Lemma production_accuracy_promoted dir content metrics run_id w v a :
  metrics !! "accuracy" = Some v → py_float v = Ok a →
  production_accuracy_at dir (promoted_world dir content metrics run_id w) = Ok a.
Proof.
  intros Hv Ha. unfold production_accuracy_at, read_json.
  assert (Hfile : w_files (promoted_world dir content metrics run_id w)
            !! (dir // "metrics.json")
          = Some (FJson (<["promoted_at" := VStr (clock_iso (w_ticks w))]>
                           (<["run_id" := VStr run_id]> metrics)))).
  { unfold promoted_world. simpl. by rewrite lookup_insert_eq. }
  rewrite (exists_file _ _ _ Hfile), Hfile. simpl.
  rewrite !lookup_insert_ne by done. by rewrite Hv.
Qed.

Lemma promoted_world_files dir content metrics run_id w q :
  is_Some (w_files w !! q) →
  is_Some (w_files (promoted_world dir content metrics run_id w) !! q).
Proof.
  intros Hq. unfold promoted_world. simpl.
  rewrite !lookup_insert. repeat case_decide; eauto.
Qed.

(** One decision of the gate on a run that states its accuracy. *)
Lemma maybe_promote_step model_path metrics config run_id w t p :
  threshold_of config = Ok t →
  production_accuracy config w = Ok p →
  ordered p →
  states_accuracy metrics →
  is_Some (w_files w !! model_path) →
  ∃ promotion w' p',
    maybe_promote model_path metrics config run_id w = Ok (promotion, w')
    ∧ production_accuracy config w' = Ok p'
    ∧ ordered p' ∧ float_le p p'
    ∧ (promotion !! "promoted" = Some (VBool true) → float_le t p')
    ∧ (∀ q, is_Some (w_files w !! q) → is_Some (w_files w' !! q)).
Proof.
  intros Ht Hp Hord (v & a & Hv & Ha) [content Hmodel].
  destruct (production_accuracy_dir _ _ _ Hp) as (dir & Hdir & Hat).
  assert (Hc : candidate_accuracy metrics = Ok a).
  { unfold candidate_accuracy. by rewrite Hv. }
  rewrite maybe_promote_eq, Hdir, Ht. simpl. rewrite Hat. simpl. rewrite Hc. simpl.
  destruct (float_ge a t && float_ge a p) eqn:Hdec.
  - apply andb_prop in Hdec as [Hat' Hap]. rewrite Hmodel.
    eexists _, _, a. split; [done|]. split_and!.
    + rewrite (production_accuracy_eq _ _ _ Hdir).
      by eapply production_accuracy_promoted.
    + by apply float_le_ordered in Hap as [_ ?].
    + done.
    + done.
    + apply promoted_world_files.
  - eexists _, _, p. split; [done|]. split_and!.
    + by rewrite (production_accuracy_eq _ _ _ Hdir), production_accuracy_at_ensure_dir.
    + done.
    + by apply float_le_refl.
    + by rewrite promotion_record_promoted.
    + done.
Qed.
End promotion_facts.

Section promotion_claims.
Context `{!PyBuiltins, !Env}.
Local Open Scope float_scope.

(** C1. With the threshold [t] read from [training.min_accuracy_to_promote]
    (0.85 when the key is absent), the previous accuracy [p] read from the
    production metrics record and the candidate accuracy [c], the gate
    returns the record whose decision is [c >= t and c >= p].  When there
    is no production metrics record, or the record is empty or states no
    accuracy, the previous accuracy is -1; with a previous accuracy of -1
    (or of zero) a candidate with a non-negative accuracy is promoted
    exactly when it meets the threshold. *)
Theorem maybe_promote_decision model_path metrics config run_id w t p c :
  threshold_of config = Ok t →
  production_accuracy config w = Ok p →
  candidate_accuracy metrics = Ok c →
  (float_ge c t && float_ge c p = true → is_Some (w_files w !! model_path)) →
  (∃ w', maybe_promote model_path metrics config run_id w
           = Ok (promotion_record (float_ge c t && float_ge c p) t p c, w'))
  ∧ (∀ training, config !! "training" = Some (VDict training) →
       training !! "min_accuracy_to_promote" = None → t = 0.85)
  ∧ (no_production_record config w → p = -1)
  ∧ (p = -1 ∨ p = 0 → float_ge c 0 = true →
       float_ge c t && float_ge c p = float_ge c t).
Proof.
  intros Ht Hp Hc Hmodel. split_and!.
  - destruct (production_accuracy_dir _ _ _ Hp) as (dir & Hdir & Hat).
    rewrite maybe_promote_eq, Hdir, Ht. simpl. rewrite Hat. simpl. rewrite Hc. simpl.
    destruct (float_ge c t && float_ge c p) eqn:Hdec; [|eauto].
    destruct Hmodel as [content ->]; eauto.
  - intros training Htr Hkey. revert Ht. unfold threshold_of. simpl.
    rewrite Htr. simpl. rewrite Hkey. simpl. by intros [= <-].
  - intros Hnone. apply (no_production_record_sentinel _ _ _ Hnone Hp).
  - unfold float_ge. intros [-> | ->] Hpos.
    + rewrite (float_le_trans (-1) 0 c); [apply andb_true_r | done | done].
    + rewrite Hpos. apply andb_true_r.
Qed.

(** C3. When the gate decides against promotion no file is written, so the
    production model file and the production metrics record are as they
    were, and the returned record states the decision, the threshold that
    was used, the previous production accuracy and the candidate
    accuracy. *)
Theorem maybe_promote_rejected model_path metrics config run_id w promotion w' :
  maybe_promote model_path metrics config run_id w = Ok (promotion, w') →
  promotion !! "promoted" = Some (VBool false) →
  w_files w' = w_files w
  ∧ ∃ t p c,
      threshold_of config = Ok t
      ∧ production_accuracy config w = Ok p
      ∧ candidate_accuracy metrics = Ok c
      ∧ float_ge c t && float_ge c p = false
      ∧ promotion = promotion_record false t p c.
Proof.
  rewrite maybe_promote_eq. unfold production_accuracy.
  destruct (production_dir_of config) as [dir|]; simpl; [|done].
  destruct (threshold_of config) as [t|]; simpl; [|done].
  destruct (production_accuracy_at dir w) as [p|]; simpl; [|done].
  destruct (candidate_accuracy metrics) as [c|]; simpl; [|done].
  destruct (float_ge c t && float_ge c p) eqn:Hdec.
  - destruct (w_files w !! model_path); [|done].
    intros [= <- <-]. by rewrite promotion_record_promoted.
  - intros [= <- <-] _. split; [done|]. by exists t, p, c.
Qed.

(** C2. Runs that state their accuracy are offered to the gate one after
    the other, starting from a production slot whose accuracy is not NaN
    (in particular from an empty slot, which reads as -1).  Every decision
    is reached, the accuracies stated by the production metrics record
    after the successive decisions, preceded by the initial one, are
    non-decreasing, and after each decision that promoted the production
    accuracy is at least the threshold. *)
Theorem promotion_monotone config runs w t p :
  threshold_of config = Ok t →
  production_accuracy config w = Ok p →
  ordered p →
  Forall (λ r, states_accuracy (c_metrics r) ∧ is_Some (w_files w !! c_model_path r)) runs →
  ∃ trace,
    promote_all config runs w = Ok trace
    ∧ length trace = length runs
    ∧ StronglySorted float_le (p :: trace.*2)
    ∧ Forall (λ d, d.1 !! "promoted" = Some (VBool true) → float_le t d.2) trace.
Proof.
  revert w p. induction runs as [|r runs IH]; intros w p Ht Hp Hord Hruns.
  - exists []. split_and!; try done. repeat constructor.
  - apply Forall_cons in Hruns as [[Hacc Hmodel] Hruns].
    destruct (maybe_promote_step (c_model_path r) (c_metrics r) config (c_run_id r)
                w t p Ht Hp Hord Hacc Hmodel)
      as (promotion & w' & p' & Hgate & Hp' & Hord' & Hle & Hthr & Hfiles).
    destruct (IH w' p' Ht Hp' Hord') as (trace & Hrun & Hlen & Hsorted & Hall).
    { eapply Forall_impl; [exact Hruns|]. intros r' [? ?]. eauto. }
    exists ((promotion, p') :: trace). simpl. rewrite Hgate. simpl.
    rewrite Hp'. simpl. rewrite Hrun. simpl. split_and!.
    + done.
    + by rewrite Hlen.
    + apply StronglySorted_inv in Hsorted as Hinv. destruct Hinv as [_ Hrest].
      constructor; [done|]. constructor; [done|].
      eapply Forall_impl; [exact Hrest|]. intros x Hx.
      by apply (float_le_trans p p' x).
    + by constructor.
Qed.
End promotion_claims.

(** *** The gate on the scenario: threshold 0.85, empty production slot,
    runs with accuracies 0.90, 0.80 and 0.95 *)

Example scenario_trace :
  (λ d, (d.1 !! "promoted", d.2)) <$>
    default [] (match @promote_all demo_builtins demo_env
                        DEFAULT_CONFIG demo_runs demo_world with
                | Ok trace => Some trace | Raise _ => None end)
  = [(Some (VBool true), 0.90%float); (Some (VBool false), 0.90%float);
     (Some (VBool true), 0.95%float)].
Proof. vm_compute. reflexivity. Qed.

Lemma maybe_promote_decision_witness :
  (∃ w', @maybe_promote demo_builtins demo_env
           (demo_model_path "r1") (demo_metrics 0.90) DEFAULT_CONFIG "r1" demo_world
         = Ok (promotion_record (float_ge 0.90 0.85 && float_ge 0.90 (-1)) 0.85 (-1) 0.90, w'))
  ∧ (∀ training, DEFAULT_CONFIG !! "training" = Some (VDict training) →
       training !! "min_accuracy_to_promote" = None → 0.85%float = 0.85%float)
  ∧ (no_production_record DEFAULT_CONFIG demo_world → (-1)%float = (-1)%float)
  ∧ ((-1)%float = (-1)%float ∨ (-1)%float = 0%float → float_ge 0.90 0 = true →
       float_ge 0.90 0.85 && float_ge 0.90 (-1) = float_ge 0.90 0.85).
Proof.
  apply (@maybe_promote_decision demo_builtins demo_env
           (demo_model_path "r1") (demo_metrics 0.90) DEFAULT_CONFIG "r1" demo_world).
  - reflexivity.
  - reflexivity.
  - reflexivity.
  - intros _. exists (FBytes "model-1"). reflexivity.
Defined.

Lemma maybe_promote_rejected_witness :
  w_files (ensure_dir ["ml/artifacts"; "production"] demo_world_promoted)
    = w_files demo_world_promoted
  ∧ ∃ t p c,
      @threshold_of demo_builtins DEFAULT_CONFIG = Ok t
      ∧ @production_accuracy demo_builtins DEFAULT_CONFIG demo_world_promoted = Ok p
      ∧ @candidate_accuracy demo_builtins (demo_metrics 0.80) = Ok c
      ∧ float_ge c t && float_ge c p = false
      ∧ promotion_record false 0.85 0.90 0.80 = promotion_record false t p c.
Proof.
  apply (@maybe_promote_rejected demo_builtins demo_env
           (demo_model_path "r2") (demo_metrics 0.80) DEFAULT_CONFIG "r2"
           demo_world_promoted).
  - vm_compute. reflexivity.
  - reflexivity.
Defined.

Lemma promotion_monotone_witness :
  ∃ trace,
    @promote_all demo_builtins demo_env DEFAULT_CONFIG demo_runs demo_world
      = Ok trace
    ∧ length trace = length demo_runs
    ∧ StronglySorted float_le ((-1)%float :: trace.*2)
    ∧ Forall (λ d, d.1 !! "promoted" = Some (VBool true) → float_le 0.85 d.2) trace.
Proof.
  apply (@promotion_monotone demo_builtins demo_env
           DEFAULT_CONFIG demo_runs demo_world 0.85 (-1)).
  - reflexivity.
  - reflexivity.
  - unfold ordered. vm_compute. discriminate.
  - repeat constructor; try (by eexists _, _; split; reflexivity);
      try (by eexists; reflexivity).
Defined.

(** ** Dataset Provider: splitting *)

Section cell_equality.
Local Open Scope float_scope.





End cell_equality.

Section distinct_values.
Implicit Types (seen l : list cell) (c x u : cell).

Local Arguments unique_step : simpl never.






End distinct_values.

Section row_selection.
Implicit Types (l : list cell) (train test idx : list nat).



End row_selection.

Section split_claims.
Context `{!PyBuiltins, !Sklearn}.


End split_claims.



(** The label of the example has two values, so the split is stratified;
    rows 1 and 2 are the train set and row 0 the test set. *)
Example split_demo :
  @split_dataset demo_builtins demo_sklearn demo_features demo_label DEFAULT_CONFIG
  = Ok (df_iloc [1; 2] demo_features, df_iloc [0] demo_features,
        s_iloc [1; 2] demo_label, s_iloc [0] demo_label)
  ∧ nunique demo_label = 2.
Proof. split; vm_compute; reflexivity. Qed.

(** ** Preprocessing Pipeline Builder *)

Section column_routing.
Implicit Types (cols : list Series) (P : Series → bool).

Lemma names_filter_sublist P cols :
  (s_name <$> List.filter P cols) `sublist_of` (s_name <$> cols).
Proof.
  induction cols as [|c cols IH]; simpl; [constructor|].
  destruct (P c); simpl; by constructor.
Qed.

Lemma names_filter_subset P cols n :
  n ∈ s_name <$> List.filter P cols → n ∈ s_name <$> cols.
Proof. intros Hn. eapply elem_of_sublist; [exact Hn|]. apply names_filter_sublist. Qed.

(** With distinct names, the names that are not names of selected columns
    are the names of the columns that are not selected. *)
Lemma filter_names_complement P cols :
  NoDup (s_name <$> cols) →
  List.filter (λ n, negb (bool_decide (n ∈ s_name <$> List.filter P cols))) (s_name <$> cols)
  = s_name <$> List.filter (λ c, negb (P c)) cols.
Proof.
  induction cols as [|c cols IH]; [done|]. rewrite fmap_cons. intros Hnd.
  apply NoDup_cons in Hnd as [Hc Hnd]. specialize (IH Hnd).
  remember (s_name <$> List.filter P (c :: cols)) as selected eqn:Hsel.
  cbn [List.filter].
  assert (Htail : List.filter (λ n, negb (bool_decide (n ∈ selected))) (s_name <$> cols)
                  = s_name <$> List.filter (λ c, negb (P c)) cols).
  { rewrite <-IH. apply List.filter_ext_in. intros n Hn. f_equal.
    apply bool_decide_ext. subst selected. cbn [List.filter]. destruct (P c); [|done].
    rewrite fmap_cons, elem_of_cons. split; [|by right].
    intros [->|?]; [|done]. destruct Hc. by apply list_elem_of_In. }
  rewrite Htail. subst selected. cbn [List.filter]. destruct (P c) eqn:HP; simpl.
  - rewrite bool_decide_eq_true_2; [done|]. by apply elem_of_cons; left.
  - rewrite bool_decide_eq_false_2; [done|].
    intros Hin. by apply names_filter_subset in Hin.
Qed.

Lemma dtype_included_numeric_like c :
  dtype_included ["number"; "bool"] (s_dtype c) = numeric_like c.
Proof. unfold numeric_like. by destruct (s_dtype c). Qed.

Lemma select_dtypes_numeric X :
  columns (select_dtypes ["number"; "bool"] X) = numeric_group X.
Proof.
  unfold columns, select_dtypes, numeric_group. simpl.
  rewrite (List.filter_ext _ numeric_like); [done|].
  intros c. apply dtype_included_numeric_like.
Qed.

Lemma groups_partition X c :
  NoDup (columns X) → c ∈ columns X →
  (c ∈ numeric_group X ↔ c ∉ categorical_group X).
Proof.
  unfold columns, numeric_group, categorical_group.
  induction (df_cols X) as [|col cols IH]; intros Hnd Hc; [by apply elem_of_nil in Hc|].
  rewrite fmap_cons in Hnd, Hc. apply NoDup_cons in Hnd as [Hcol Hnd].
  cbn [List.filter]. apply elem_of_cons in Hc as [->|Hc].
  - destruct (numeric_like col); simpl.
    + split; [|by intros; apply elem_of_cons; left].
      intros _ Hin. by apply names_filter_subset in Hin.
    + split; [|by intros Hn; destruct Hn; apply elem_of_cons; left].
      intros Hin. by apply names_filter_subset in Hin.
  - assert (c ≠ s_name col) by (by intros ->).
    destruct (numeric_like col); simpl; rewrite ?elem_of_cons; specialize (IH Hnd Hc);
      tauto.
Qed.
End column_routing.

Section preprocessor_claims.
Context `{!PyBuiltins}.

(** C6. For a table with distinct column names and a configuration with a
    [preprocess] section: the numeric transform is on the numeric-like
    columns (numeric or boolean type) and the categorical transform on all
    the others, each list in the order of the table; the transform of an
    empty group is left out; without any column the result is the
    passthrough, and only then; otherwise the column transformer drops the
    remainder.  Every column is in exactly one of the two groups. *)
Theorem build_preprocessor_routing X config preprocess_cfg :
  NoDup (columns X) →
  config !! "preprocess" = Some (VDict preprocess_cfg) →
  build_preprocessor X config
    = Ok (match (group_transform "numeric" (numeric_steps_of preprocess_cfg) (numeric_group X)
                 ++ group_transform "categorical" (categorical_steps_of preprocess_cfg)
                      (categorical_group X))%list with
          | [] => Passthrough
          | transformers => ColumnTransformer transformers "drop"
          end)
  ∧ numeric_group X `sublist_of` columns X
  ∧ categorical_group X `sublist_of` columns X
  ∧ (∀ c, c ∈ columns X → (c ∈ numeric_group X ↔ c ∉ categorical_group X))
  ∧ (build_preprocessor X config = Ok Passthrough
     ↔ numeric_group X = [] ∧ categorical_group X = []).
Proof.
  intros Hnd Hcfg.
  assert (Heq : build_preprocessor X config
    = Ok (match (group_transform "numeric" (numeric_steps_of preprocess_cfg) (numeric_group X)
                 ++ group_transform "categorical" (categorical_steps_of preprocess_cfg)
                      (categorical_group X))%list with
          | [] => Passthrough
          | transformers => ColumnTransformer transformers "drop"
          end)).
  { unfold build_preprocessor. simpl. rewrite Hcfg. simpl.
    rewrite select_dtypes_numeric.
    assert (Hcat : List.filter (λ c, negb (bool_decide (c ∈ numeric_group X))) (columns X)
                   = categorical_group X) by by apply filter_names_complement.
    rewrite Hcat. unfold group_transform, numeric_steps_of, categorical_steps_of.
    destruct (numeric_group X) as [|n ns], (categorical_group X) as [|c cs]; simpl; try done.
    all: by destruct (py_bool _). }
  split_and!.
  - done.
  - apply names_filter_sublist.
  - apply names_filter_sublist.
  - intros c. by apply groups_partition.
  - rewrite Heq. unfold group_transform.
    destruct (numeric_group X) as [|n ns], (categorical_group X) as [|c cs]; simpl;
      split; try done; by intros [? ?].
Qed.
End preprocessor_claims.

Lemma build_preprocessor_routing_witness :
  @build_preprocessor demo_builtins demo_features DEFAULT_CONFIG
    = Ok (match (group_transform "numeric"
                   (@numeric_steps_of demo_builtins demo_preprocess_cfg)
                   (numeric_group demo_features)
                 ++ group_transform "categorical"
                      (@categorical_steps_of demo_builtins demo_preprocess_cfg)
                      (categorical_group demo_features))%list with
          | [] => Passthrough
          | transformers => ColumnTransformer transformers "drop"
          end)
  ∧ numeric_group demo_features `sublist_of` columns demo_features
  ∧ categorical_group demo_features `sublist_of` columns demo_features
  ∧ (∀ c, c ∈ columns demo_features →
       (c ∈ numeric_group demo_features ↔ c ∉ categorical_group demo_features))
  ∧ (@build_preprocessor demo_builtins demo_features DEFAULT_CONFIG = Ok Passthrough
     ↔ numeric_group demo_features = [] ∧ categorical_group demo_features = []).
Proof.
  apply (@build_preprocessor_routing demo_builtins demo_features DEFAULT_CONFIG
           demo_preprocess_cfg).
  - apply (bool_decide_unpack (NoDup (columns demo_features))). vm_compute. exact I.
  - reflexivity.
Defined.

(** The example table: two numeric columns and one text column. *)
Example build_preprocessor_demo :
  @build_preprocessor demo_builtins demo_features DEFAULT_CONFIG
  = Ok (ColumnTransformer
          [ ("numeric", [("imputer", SimpleImputer "median"); ("scaler", StandardScaler)],
             ["age"; "target"]);
            ("categorical", [("imputer", SimpleImputer "most_frequent");
                             ("encoder", OneHotEncoder "ignore" false)], ["city"]) ]
          "drop").
Proof. vm_compute. reflexivity. Qed.

(** A table without columns is passed through. *)
Example build_preprocessor_empty :
  @build_preprocessor demo_builtins (mkDataFrame 3 []) DEFAULT_CONFIG = Ok Passthrough.
Proof. reflexivity. Qed.

(** ** Dataset Provider: loading *)

Section load_claims.
Context `{!PyBuiltins, !Sklearn}.
Implicit Types (df X : DataFrame) (w : world).





End load_claims.


(** The configuration file merged into the defaults is the example
    configuration; loading with it yields the example features without the
    dropped column, and the label. *)
Example load_dataset_demo :
  load_config ["ml/config.yaml"] demo_disk = Ok demo_config
  ∧ @load_dataset demo_builtins demo_sklearn demo_config demo_disk
    = Ok (df_drop ["city"] demo_features, demo_label).
Proof. split; vm_compute; reflexivity. Qed.

(** A missing file and a table without the label column. *)
Example load_dataset_errors :
  @load_dataset demo_builtins demo_sklearn demo_config (mkWorld ∅ ∅ 0)
    = Raise (FileNotFoundError "Dataset CSV not found: data/train.csv")
  ∧ @load_dataset demo_builtins demo_sklearn demo_config
      (mkWorld (<[["data/train.csv"] := FCsv demo_features]> ∅) ∅ 0)
    = Raise (ValueError "Target column 'label' not found in data/train.csv").
Proof. split; vm_compute; reflexivity. Qed.

(** ** Artifact & Run Manager: the preprocessing snapshot *)

Section snapshot_facts.
Implicit Types (cols : list Series) (col c : Series) (X df : DataFrame) (y : Series).

Lemma existsb_name cols name :
  existsb (λ c, String.eqb (s_name c) name) cols = true ↔ name ∈ s_name <$> cols.
Proof.
  rewrite existsb_exists, list_elem_of_fmap. split.
  - intros (c & Hc & Heq%String.eqb_eq). exists c. split; [done|]. by apply list_elem_of_In.
  - intros (c & -> & Hc). exists c. split; [by apply list_elem_of_In|]. apply String.eqb_refl.
Qed.

Lemma set_column_names col cols :
  s_name col ∈ s_name <$> cols → s_name <$> set_column col cols = s_name <$> cols.
Proof.
  intros Hin. unfold set_column. apply existsb_name in Hin as ->.
  induction cols as [|c cols IH]; [done|]. rewrite !fmap_cons, IH. f_equal.
  by destruct (String.eqb_spec (s_name c) (s_name col)).
Qed.

Lemma set_column_fresh col cols :
  s_name col ∉ s_name <$> cols → set_column col cols = (cols ++ [col])%list.
Proof.
  intros Hout. unfold set_column.
  destruct (existsb _ cols) eqn:Hex; [|done]. by apply existsb_name in Hex.
Qed.

Lemma find_set_column_same col cols :
  List.find (λ c, String.eqb (s_name c) (s_name col)) (set_column col cols) = Some col.
Proof.
  unfold set_column. destruct (existsb _ cols) eqn:Hex.
  - induction cols as [|c cols IH]; [done|]. simpl in *.
    destruct (String.eqb_spec (s_name c) (s_name col)) as [Heq|Hne]; simpl.
    + by rewrite String.eqb_refl.
    + destruct (String.eqb_spec (s_name c) (s_name col)); [done|]. by apply IH.
  - induction cols as [|c cols IH]; simpl in *; [by rewrite String.eqb_refl|].
    apply orb_false_elim in Hex as [-> Hex]. by apply IH.
Qed.

Lemma find_set_column_other col cols name :
  name ≠ s_name col →
  List.find (λ c, String.eqb (s_name c) name) (set_column col cols)
  = List.find (λ c, String.eqb (s_name c) name) cols.
Proof.
  intros Hne. unfold set_column. destruct (existsb _ cols).
  - induction cols as [|c cols IH]; [done|]. rewrite fmap_cons.
    destruct (String.eqb_spec (s_name c) (s_name col)) as [Heq|Hne']; simpl; rewrite IH.
    + destruct (String.eqb_spec (s_name col) name); [done|].
      destruct (String.eqb_spec (s_name c) name); [congruence|done].
    + done.
  - induction cols as [|c cols IH]; simpl.
    + by destruct (String.eqb_spec (s_name col) name).
    + by rewrite IH.
Qed.

Lemma set_column_all_named col cols c :
  c ∈ set_column col cols → s_name c = s_name col → c = col.
Proof.
  unfold set_column. destruct (existsb _ cols) eqn:Hex.
  - intros (c' & -> & _)%list_elem_of_fmap.
    by destruct (String.eqb_spec (s_name c') (s_name col)).
  - intros [Hc|Hc%list_elem_of_singleton]%elem_of_app; [|done].
    intros Hname. assert (existsb (λ c, String.eqb (s_name c) (s_name col)) cols = true);
      [|congruence].
    apply existsb_name, list_elem_of_fmap. by exists c.
Qed.

(** Setting the label of a table of as many rows. *)
Lemma df_setitem_labelled X y :
  length (s_values y) = df_len X →
  ∃ df, df_setitem "target" (s_dtype y) (s_values y) X = Ok df ∧ labelled X y df.
Proof.
  intros Hlen. unfold df_setitem. rewrite Hlen.
  replace ((df_len X =? 0)%nat && (0 <? df_len X)%nat) with false
    by (by destruct (df_len X)).
  rewrite Nat.eqb_refl. eexists. split; [done|]. unfold labelled, df_getitem, columns. simpl.
  split_and!.
  - done.
  - apply (find_set_column_same (mkSeries "target" _ _)).
  - intros c. apply (set_column_all_named (mkSeries "target" _ _)).
  - intros name Hne. by apply (find_set_column_other (mkSeries "target" _ _)).
  - apply (set_column_fresh (mkSeries "target" _ _)).
  - apply (set_column_names (mkSeries "target" _ _)).
Qed.
End snapshot_facts.

(** C10. For train and test tables with as many rows as their labels, the
    snapshot is written and the two files hold the tables with the label
    values under the name "target", whatever the label column of the
    configuration is called (the function is not given the configuration):
    the label is the trailing column when the features have no column
    "target"; when they have one, the column names are unchanged and every
    column called "target" holds the label values, so the values of that
    feature are not in the file. *)
Theorem save_preprocess_snapshot_target X_train X_test y_train y_test run_dir w :
  length (s_values y_train) = df_len X_train →
  length (s_values y_test) = df_len X_test →
  ∃ report w' train_df test_df,
    save_preprocess_snapshot X_train X_test y_train y_test run_dir w = Ok (report, w')
    ∧ w_files w' !! (run_dir // "preprocessed" // "train.csv") = Some (FCsv train_df)
    ∧ w_files w' !! (run_dir // "preprocessed" // "test.csv") = Some (FCsv test_df)
    ∧ labelled X_train y_train train_df
    ∧ labelled X_test y_test test_df.
Proof.
  intros Htrain Htest.
  destruct (df_setitem_labelled X_train y_train Htrain) as (train_df & Hset_train & Hl_train).
  destruct (df_setitem_labelled X_test y_test Htest) as (test_df & Hset_test & Hl_test).
  unfold save_preprocess_snapshot. rewrite Hset_train. simpl. rewrite Hset_test. simpl.
  eexists _, _, train_df, test_df. split; [done|]. split_and!; try done.
  - unfold to_csv. simpl. rewrite lookup_insert_ne, lookup_insert_eq; [done|].
    unfold path_div. intros Heq%(inj (app _)). discriminate.
  - unfold to_csv. simpl. by rewrite lookup_insert_eq.
Qed.

Lemma save_preprocess_snapshot_target_witness :
  ∃ report w' train_df test_df,
    save_preprocess_snapshot demo_features (df_iloc [0] demo_features)
      demo_label (s_iloc [0] demo_label) ["ml/artifacts"; "runs"; "r1"] demo_disk
      = Ok (report, w')
    ∧ w_files w' !! (["ml/artifacts"; "runs"; "r1"] // "preprocessed" // "train.csv")
      = Some (FCsv train_df)
    ∧ w_files w' !! (["ml/artifacts"; "runs"; "r1"] // "preprocessed" // "test.csv")
      = Some (FCsv test_df)
    ∧ labelled demo_features demo_label train_df
    ∧ labelled (df_iloc [0] demo_features) (s_iloc [0] demo_label) test_df.
Proof.
  apply (save_preprocess_snapshot_target demo_features (df_iloc [0] demo_features)
           demo_label (s_iloc [0] demo_label) ["ml/artifacts"; "runs"; "r1"] demo_disk).
  - reflexivity.
  - reflexivity.
Defined.

(** The example table has a feature called "target" and its label column
    is called "label".  In the snapshot the feature values 0.5, 1.5 and 2.5
    are gone: the column "target" holds the label values. *)
Example snapshot_overwrites_feature :
  df_getitem demo_features "target"
    = Some (mkSeries "target" DFloat64 [CFloat 0.5; CFloat 1.5; CFloat 2.5])
  ∧ (default ∅ (match save_preprocess_snapshot demo_features (df_iloc [0] demo_features)
                        demo_label (s_iloc [0] demo_label)
                        ["ml/artifacts"; "runs"; "r1"] demo_disk with
                 | Ok (_, w') => Some (w_files w')
                 | Raise _ => None
                 end)) !! ["ml/artifacts"; "runs"; "r1"; "preprocessed"; "train.csv"]
    = Some (FCsv (mkDataFrame 3
        [ mkSeries "age" DInt64 [CInt 31; CInt 45; CInt 27];
          mkSeries "city" DObject [CStr "Oslo"; CStr "Rome"; CNa];
          mkSeries "target" DInt64 [CInt 1; CInt 0; CInt 1] ])).
Proof. split; vm_compute; reflexivity. Qed.

(** ** HTTP trigger *)

Section api_facts.
Context `{!PyBuiltins, !Env, !Sklearn, !Formatting}.





(** The summary of a run states its identifier and its metrics. *)
Lemma run_pipeline_summary config reason w summary w' :
  run_pipeline config reason w = Ok (summary, w') →
  ∃ run_id metrics,
    summary !! "run_id" = Some (VStr run_id) ∧ summary !! "metrics" = Some (VDict metrics).
Proof.
  unfold run_pipeline, mbind, result_bind, rbind. intros Hrun.
  repeat match type of Hrun with
         | context [match ?x with _ => _ end] => destruct x eqn:?; try discriminate
         end.
  injection Hrun as <- <-. eexists _, _. split.
  - by rewrite lookup_insert_eq.
  - do 3 (rewrite lookup_insert_ne by done). by rewrite lookup_insert_eq.
Qed.

Lemma trigger_train_eq config_path authorization w cfg token :
  load_config config_path w = Ok cfg →
  token_required_of cfg = Ok token →
  trigger_train config_path authorization w =
    match authorize authorization token with
    | Ok _ =>
        match run_pipeline cfg "api" w with
        | Ok (summary, w') =>
            run_id ← py_getitem (VDict summary) "run_id";
            metrics ← py_getitem (VDict summary) "metrics";
            Ok (train_response run_id metrics, w')
        | Raise e => Raise e
        end
    | Raise e => Raise e
    end.
Proof.
  unfold trigger_train, token_required_of. intros ->. simpl.
  destruct (default _ (cfg !! "api")); simpl; try done.
  intros [= <-]. destruct (authorize _ _); simpl; [|done].
  by destruct (run_pipeline _ _ _) as [[summary w']|].
Qed.
End api_facts.

Section api_claims.
Context `{!PyBuiltins, !Env, !Sklearn, !Formatting}.

End api_claims.



(** The four answers of the endpoint on the example disk: no credential,
    another scheme, a wrong token, and the configured token (with blanks
    around it), which runs the pipeline and promotes its model. *)
Example trigger_train_answers :
  let answer authorization :=
    match @trigger_train demo_builtins demo_env demo_sklearn demo_formatting
            ["ml/config.yaml"] authorization demo_disk with
    | Ok (response, _) => inl (response !! "run_id")
    | Raise e => inr e
    end in
  answer None = inr (HTTPException 401 "Missing Authorization header")
  ∧ answer (Some "Basic czNjcmV0")
    = inr (HTTPException 401 "Authorization must use Bearer token")
  ∧ answer (Some "Bearer guess") = inr (HTTPException 403 "Invalid bearer token")
  ∧ answer (Some "Bearer  s3cret ") = inl (Some (VStr "20260101-000000-01234567")).
Proof. vm_compute. repeat split. Qed.

(** ** Model Trainer: the parameter grid *)

Section normalize_facts.
Implicit Types (items : list (string * pyval)) (acc g : pydict) (k j : string) (v : pyval).

Lemma normalize_fold_other items : ∀ acc j,
  (∀ kv, kv ∈ items → normalize_key kv.1 ≠ j) →
  foldl normalize_put acc items !! j = acc !! j.
Proof.
  induction items as [|[k v] items IH]; intros acc j Hj; [done|]. simpl.
  rewrite IH; unfold normalize_put; simpl.
  - apply lookup_insert_ne. apply (Hj (k, v)). by apply elem_of_cons; left.
  - intros kv Hkv. apply Hj. by apply elem_of_cons; right.
Qed.

Lemma normalize_fold_dom items : ∀ acc j,
  is_Some (foldl normalize_put acc items !! j)
  ↔ is_Some (acc !! j) ∨ j ∈ normalize_key <$> items.*1.
Proof.
  induction items as [|[k v] items IH]; intros acc j; simpl.
  - split; [by left|]. intros [?|?%elem_of_nil]; done.
  - rewrite IH. unfold normalize_put. simpl. rewrite lookup_insert_is_Some, elem_of_cons.
    destruct (decide (normalize_key k = j)); naive_solver.
Qed.

Lemma normalize_fold_lookup items : ∀ acc k v,
  NoDup items.*1 →
  (k, v) ∈ items →
  (∀ kv, kv ∈ items → normalize_key kv.1 = normalize_key k → kv.1 = k) →
  foldl normalize_put acc items !! normalize_key k = Some v.
Proof.
  induction items as [|[k0 v0] items IH]; intros acc k v Hnd Hin Hinj.
  - by apply elem_of_nil in Hin.
  - rewrite fmap_cons in Hnd. apply NoDup_cons in Hnd as [Hk0 Hnd]. simpl.
    apply elem_of_cons in Hin as [[= <- <-]|Hin].
    + rewrite normalize_fold_other; [apply lookup_insert_eq|].
      intros [k' v'] Hkv Heq. simpl in *.
      assert (k' = k) as -> by (apply (Hinj (k', v')); [by apply elem_of_cons; right|done]).
      apply Hk0. apply list_elem_of_fmap. by exists (k, v').
    + apply IH; [done|done|]. intros kv Hkv. apply Hinj. by apply elem_of_cons; right.
Qed.
End normalize_facts.

Section grid_facts.
Context `{!PyBuiltins, !Sklearn}.

(** For the items of a dictionary in any order: every name is stored
    under its normalised name, and nothing else is stored; a value is found
    under the normalised name of its key when no other key has the same
    normalised name. *)
Lemma normalize_items_spec (g : pydict) items :
  items ≡ₚ map_to_list g →
  (∀ j, is_Some (normalize_items items !! j) ↔ ∃ k, is_Some (g !! k) ∧ normalize_key k = j)
  ∧ (∀ k v, g !! k = Some v →
       (∀ k', is_Some (g !! k') → normalize_key k' = normalize_key k → k' = k) →
       normalize_items items !! normalize_key k = Some v).
Proof.
  intros Hperm. unfold normalize_items. split.
  - intros j. rewrite normalize_fold_dom, lookup_empty, list_elem_of_fmap. split.
    + intros [[? [=]]|(k & -> & Hk)]. apply list_elem_of_fmap in Hk as ([k' v] & -> & Hkv).
      rewrite Hperm in Hkv. apply elem_of_map_to_list in Hkv. exists k'. eauto.
    + intros (k & [v Hv] & <-). right. exists k. split; [done|].
      apply list_elem_of_fmap. exists (k, v). split; [done|].
      rewrite Hperm. by apply elem_of_map_to_list.
  - intros k v Hk Hinj. apply normalize_fold_lookup.
    + rewrite Hperm. apply NoDup_fst_map_to_list.
    + rewrite Hperm. by apply elem_of_map_to_list.
    + intros [k' v'] Hkv. rewrite Hperm in Hkv. apply elem_of_map_to_list in Hkv.
      simpl. apply Hinj. eauto.
Qed.

Lemma normalize_items_nonempty (g : pydict) : g ≠ ∅ → normalize_items (map_to_list g) ≠ ∅.
Proof.
  intros Hg Hempty. apply map_choose in Hg as (k & v & Hk).
  destruct (normalize_items_spec g (map_to_list g) (reflexivity _)) as [Hdom _].
  assert (Hsome : is_Some (normalize_items (map_to_list g) !! normalize_key k)).
  { apply Hdom. exists k. eauto. }
  rewrite Hempty, lookup_empty in Hsome. by destruct Hsome.
Qed.

Lemma py_bool_dict (g : pydict) : py_bool (VDict g) = true ↔ g ≠ ∅.
Proof.
  simpl. rewrite negb_true_iff, bool_decide_eq_false. done.
Qed.

Lemma build_model_type config model :
  build_model config = Ok model →
  model_type_of config = Ok "random_forest"
  ∨ model_type_of config = Ok "logistic_regression".
Proof.
  unfold build_model, model_type_of. simpl.
  destruct (config !! "model") as [model_cfg|]; simpl; [|done].
  destruct (py_get model_cfg "type" _) as [v|]; simpl; [|done].
  destruct (config !! "dataset") as [dataset_cfg|]; simpl; [|done].
  destruct (py_get dataset_cfg _ _) as [v'|]; simpl; [|done].
  destruct (py_int v') as [seed|]; simpl; [|done].
  destruct (String.eqb_spec (lower (strip (py_str v))) "random_forest") as [->|]; [by left|].
  destruct (String.eqb_spec (lower (strip (py_str v))) "logistic_regression") as [->|];
    [by right|done].
Qed.

(** Inside [train_model] the grid that is resolved is never empty: the
    model type has passed [build_model], so its default grid has entries,
    and a configured grid that is used has at least one key. *)
Lemma resolved_grid_nonempty config model mt hpo_cfg configured_grid grid :
  build_model config = Ok model →
  model_type_of config = Ok mt →
  resolve_grid hpo_cfg mt = Ok (configured_grid, grid) →
  grid ≠ ∅.
Proof.
  intros Hmodel Hmt. unfold resolve_grid. simpl.
  destruct (py_get hpo_cfg "param_grid" VNone) as [v|]; simpl; [|done].
  destruct (py_bool v) eqn:Hv.
  - rewrite Hv. destruct v as [| | | | | |g]; simpl; try done.
    intros [= <- <-]. by apply normalize_items_nonempty, py_bool_dict.
  - simpl. intros [= <- <-].
    destruct (build_model_type _ _ Hmodel) as [Hty|Hty]; rewrite Hmt in Hty;
      injection Hty as ->; apply insert_non_empty.
Qed.
End grid_facts.

Section train_claims.
Context `{!PyBuiltins, !Sklearn}.

Lemma train_model_eq X y config hpo_cfg pre model mt :
  model_type_of config = Ok mt →
  build_preprocessor X config = Ok pre →
  build_model config = Ok model →
  config !! "hpo" = Some (VDict hpo_cfg) →
  train_model X y config =
    if hpo_enabled hpo_cfg then
      '(configured_grid, grid) ← resolve_grid (VDict hpo_cfg) mt;
      cv_folds ← cv_folds_of hpo_cfg;
      fit_or_search (mkPipeline pre model) configured_grid grid cv_folds
        (scoring_of hpo_cfg) X y
    else
      est ← fit (mkPipeline pre model) X y;
      Ok (est, <["enabled" := VBool false]> ∅).
Proof.
  intros Hmt Hpre Hmodel Hhpo. unfold train_model.
  rewrite Hmt. simpl. rewrite Hpre. simpl. rewrite Hmodel. simpl. rewrite Hhpo. simpl.
  unfold hpo_enabled. destruct (py_bool (default _ (hpo_cfg !! "enabled"))); [|done].
  simpl. destruct (mbind _ _) as [[configured_grid grid]|]; simpl; [|done]. done.
Qed.

End train_claims.


(** On the example the configured grid is used with the bare name "C"
    namespaced, and the report says that it was not the default grid. *)
Example train_model_demo :
  normalize_param_grid (VDict demo_grid)
    = Ok (<["model__C" := VList [VFloat 0.1; VFloat 1.0]]> (
          <["model__solver" := VList [VStr "lbfgs"]]> ∅))
  ∧ @train_model demo_builtins demo_sklearn demo_features demo_label demo_grid_config
    = Ok ("best",
          search_report false 3 "f1_weighted" 0.9
            (<["model__C" := VList [VFloat 0.1; VFloat 1.0]]> (
             <["model__solver" := VList [VStr "lbfgs"]]> ∅)))
  ∧ default_param_grid "gradient_boosting" = ∅.
Proof. split_and!; vm_compute; reflexivity. Qed.

(** * Further properties *)

(** ** Config Resolver: merging and the configuration file *)

Section deep_merge_contract.
Implicit Types (base override d o : pydict) (v : pyval) (k : string).

(** X1. An empty override leaves the defaults as they are, and an override
    merged into an empty base is returned as it is. *)
Theorem deep_merge_empty (d : pydict) :
  deep_merge d ∅ = d ∧ deep_merge ∅ d = d.
Proof.
  split.
  - apply map_eq. intros k. by rewrite deep_merge_lookup, lookup_empty.
  - apply map_eq. intros k. rewrite deep_merge_lookup, lookup_empty.
    by destruct (d !! k).
Qed.

(** X2. The keys of a merge are the keys of the base and of the override.
    Under a key of the override the merge holds the override's value, unless
    both sides hold mappings, which are merged in turn; under every other
    key it holds the base's value. *)
Theorem deep_merge_contract base override k :
  (is_Some (deep_merge base override !! k)
     ↔ is_Some (base !! k) ∨ is_Some (override !! k))
  ∧ (override !! k = None → deep_merge base override !! k = base !! k)
  ∧ (∀ v, override !! k = Some v →
       (∀ sub, v ≠ VDict sub) → deep_merge base override !! k = Some v)
  ∧ (∀ v, override !! k = Some v →
       (∀ sub, base !! k ≠ Some (VDict sub)) → deep_merge base override !! k = Some v)
  ∧ (∀ b o, base !! k = Some (VDict b) → override !! k = Some (VDict o) →
       deep_merge base override !! k = Some (VDict (deep_merge b o))).
Proof.
  rewrite deep_merge_lookup. split_and!.
  - destruct (override !! k); split; eauto. intros [?|[? [=]]]; done.
  - by intros ->.
  - intros v -> Hv. f_equal. destruct (base !! k) as [[]|], v; try done.
    by destruct (Hv d0).
  - intros v -> Hb. f_equal. destruct (base !! k) as [[]|], v; try done.
    by destruct (Hb d).
  - by intros b o -> ->.
Qed.
End deep_merge_contract.

(** X3. [load_config]: a path that does not exist raises
    [FileNotFoundError]; a document that is empty or otherwise false (null,
    an empty mapping) yields the defaults; a mapping is merged into the
    defaults; any other document that is not false raises
    [AttributeError].  Every configuration that is returned has all the
    sections of the defaults. *)
Theorem load_config_cases (config_path : path) (w : world) :
  (exists_ config_path w = false →
     load_config config_path w
     = Raise (FileNotFoundError ("Config file not found: " +:+ path_str config_path)))
  ∧ (∀ doc, w_files w !! config_path = Some (FYaml doc) → py_bool doc = false →
       load_config config_path w = Ok DEFAULT_CONFIG)
  ∧ (∀ override, w_files w !! config_path = Some (FYaml (VDict override)) →
       load_config config_path w = Ok (deep_merge DEFAULT_CONFIG override))
  ∧ (∀ doc, w_files w !! config_path = Some (FYaml doc) → py_bool doc = true →
       (∀ override, doc ≠ VDict override) →
       load_config config_path w = Raise AttributeError)
  ∧ (∀ cfg k, load_config config_path w = Ok cfg →
       is_Some (DEFAULT_CONFIG !! k) → is_Some (cfg !! k)).
Proof.
  unfold load_config. split_and!.
  - by intros ->.
  - intros doc Hdoc Hfalse. by rewrite (exists_file _ _ _ Hdoc), Hdoc, Hfalse.
  - intros override Hdoc. rewrite (exists_file _ _ _ Hdoc), Hdoc. simpl.
    destruct (bool_decide (override = ∅)) eqn:Hempty; simpl; [|done].
    apply bool_decide_eq_true in Hempty as ->. done.
  - intros doc Hdoc Htrue Hnot. rewrite (exists_file _ _ _ Hdoc), Hdoc, Htrue. simpl.
    destruct doc; try done. by destruct (Hnot d).
  - intros cfg k. destruct (exists_ config_path w); simpl; [|done].
    destruct (w_files w !! config_path) as [[| doc | | |]|]; try done.
    destruct (if py_bool doc then doc else VDict ∅) as [| | | | | |override]; try done.
    intros [= <-] Hk. rewrite deep_merge_lookup.
    by destruct (override !! k).
Qed.

(** ** JSON files and run identifiers *)


Lemma string_app_inj_length (s1 s2 t1 t2 : string) :
  String.length s1 = String.length s2 → s1 +:+ t1 = s2 +:+ t2 → s1 = s2 ∧ t1 = t2.
Proof.
  revert s2. induction s1 as [|c s1 IH]; intros [|c' s2]; simpl; try done.
  intros [= Hlen] [= -> Happ]. destruct (IH s2 Hlen Happ) as [-> ->]. done.
Qed.

(** X5. Run identifiers built from time stamps of one length (the format
    of the stamp is fixed) are equal only when the stamps are equal and the
    first eight digits of the random part are equal; and building an
    identifier takes one reading of the clock. *)
Theorem make_run_id_injective `{!Env} (w1 w2 : world) :
  String.length (clock_stamp (w_ticks w1)) = String.length (clock_stamp (w_ticks w2)) →
  (make_run_id w1).1 = (make_run_id w2).1 →
  clock_stamp (w_ticks w1) = clock_stamp (w_ticks w2)
  ∧ String.substring 0 8 (uuid4_hex (w_ticks w1))
    = String.substring 0 8 (uuid4_hex (w_ticks w2))
  ∧ w_ticks (make_run_id w1).2 = S (w_ticks w1).
Proof.
  unfold make_run_id. simpl. intros Hlen Heq.
  apply string_app_inj_length in Heq as [Hstamp Hrest]; [|done].
  by injection Hrest as ?.
Qed.

Lemma make_run_id_injective_witness :
  clock_stamp (Env := demo_env) (w_ticks demo_world)
    = clock_stamp (Env := demo_env) (w_ticks demo_disk)
  ∧ String.substring 0 8 (uuid4_hex (Env := demo_env) (w_ticks demo_world))
    = String.substring 0 8 (uuid4_hex (Env := demo_env) (w_ticks demo_disk))
  ∧ w_ticks (@make_run_id demo_env demo_world).2 = S (w_ticks demo_world).
Proof.
  apply (@make_run_id_injective demo_env demo_world demo_disk).
  - reflexivity.
  - reflexivity.
Defined.

(** ** Dataset Provider: no input file, and sections that are not mappings *)

Section dataset_edges.
Context `{!PyBuiltins, !Sklearn}.

(** X6. When the input path is unset, empty or blank, the built-in dataset
    is returned whatever the files are, provided [drop_columns] can be
    iterated: the drop columns are read before the path is looked at, so a
    [drop_columns] that is null or a number raises [TypeError] even
    then. *)
Theorem load_dataset_fallback config dataset_cfg w :
  config !! "dataset" = Some (VDict dataset_cfg) →
  input_csv_of dataset_cfg = "" →
  (∀ drop_columns, drop_columns_of dataset_cfg = Ok drop_columns →
     load_dataset config w = Ok load_breast_cancer)
  ∧ (∀ v, dataset_cfg !! "drop_columns" = Some v →
       (v = VNone ∨ (∃ b, v = VBool b) ∨ (∃ z, v = VInt z) ∨ (∃ f, v = VFloat f)) →
       load_dataset config w = Raise TypeError).
Proof.
  intros Hcfg Hcsv. unfold load_dataset, drop_columns_of. simpl. rewrite Hcfg. simpl.
  fold (input_csv_of dataset_cfg). rewrite Hcsv. split.
  - intros drop_columns. by destruct (py_iter _).
  - intros v -> [->|[[b ->]|[[z ->]|[f ->]]]]; done.
Qed.

(** X7. A [dataset] section that the configuration file replaces by
    something that is not a mapping (null, a string, a list) is not
    repaired by the defaults: loading and splitting fail with
    [AttributeError]. *)
Theorem dataset_section_not_mapping config_path override cfg v w w' X y :
  w_files w !! config_path = Some (FYaml (VDict override)) →
  override !! "dataset" = Some v →
  (∀ sub, v ≠ VDict sub) →
  load_config config_path w = Ok cfg →
  cfg !! "dataset" = Some v
  ∧ load_dataset cfg w' = Raise AttributeError
  ∧ split_dataset X y cfg = Raise AttributeError.
Proof.
  intros Hfile Hv Hnot. unfold load_config.
  rewrite (exists_file _ _ _ Hfile), Hfile. simpl.
  assert (Hne : override ≠ ∅) by (intros ->; by rewrite lookup_empty in Hv).
  rewrite bool_decide_eq_false_2 by done. simpl. intros [= <-].
  assert (Hcfg : deep_merge DEFAULT_CONFIG override !! "dataset" = Some v).
  { rewrite deep_merge_lookup, Hv. f_equal. destruct v; try done. by destruct (Hnot d). }
  split; [done|]. unfold load_dataset, split_dataset. simpl. rewrite Hcfg. simpl.
  destruct v; try done; by destruct (Hnot d).
Qed.
End dataset_edges.

Lemma load_dataset_fallback_witness :
  (∀ drop_columns,
     @drop_columns_of demo_builtins
       (<["input_csv" := VStr "  "]> (<["drop_columns" := VList [VStr "city"]]> ∅))
       = Ok drop_columns →
     @load_dataset demo_builtins demo_sklearn
       (<["dataset" := VDict (<["input_csv" := VStr "  "]> (
                              <["drop_columns" := VList [VStr "city"]]> ∅))]> DEFAULT_CONFIG)
       demo_disk
     = Ok (load_breast_cancer (Sklearn := demo_sklearn)))
  ∧ (∀ v, (<["input_csv" := VStr "  "]> (<["drop_columns" := VList [VStr "city"]]> ∅) : pydict)
            !! "drop_columns" = Some v →
       (v = VNone ∨ (∃ b, v = VBool b) ∨ (∃ z, v = VInt z) ∨ (∃ f, v = VFloat f)) →
       @load_dataset demo_builtins demo_sklearn
         (<["dataset" := VDict (<["input_csv" := VStr "  "]> (
                                <["drop_columns" := VList [VStr "city"]]> ∅))]> DEFAULT_CONFIG)
         demo_disk
       = Raise TypeError).
Proof.
  apply (@load_dataset_fallback demo_builtins demo_sklearn
           (<["dataset" := VDict (<["input_csv" := VStr "  "]> (
                                  <["drop_columns" := VList [VStr "city"]]> ∅))]> DEFAULT_CONFIG)
           (<["input_csv" := VStr "  "]> (<["drop_columns" := VList [VStr "city"]]> ∅))
           demo_disk).
  - reflexivity.
  - reflexivity.
Defined.

Lemma dataset_section_not_mapping_witness :
  deep_merge DEFAULT_CONFIG (<["dataset" := VNone]> ∅) !! "dataset" = Some VNone
  ∧ @load_dataset demo_builtins demo_sklearn
      (deep_merge DEFAULT_CONFIG (<["dataset" := VNone]> ∅)) demo_disk
    = Raise AttributeError
  ∧ @split_dataset demo_builtins demo_sklearn demo_features demo_label
      (deep_merge DEFAULT_CONFIG (<["dataset" := VNone]> ∅))
    = Raise AttributeError.
Proof.
  apply (@dataset_section_not_mapping demo_builtins demo_sklearn ["cfg.yaml"]
           (<["dataset" := VNone]> ∅) (deep_merge DEFAULT_CONFIG (<["dataset" := VNone]> ∅))
           VNone
           (mkWorld (<[["cfg.yaml"] := FYaml (VDict (<["dataset" := VNone]> ∅))]> ∅) ∅ 0)
           demo_disk demo_features demo_label).
  - reflexivity.
  - reflexivity.
  - discriminate.
  - vm_compute. reflexivity.
Defined.

(** ** Preprocessing Pipeline Builder: routing by name *)

Section routing_by_name.
Context `{!PyBuiltins}.

Lemma build_preprocessor_eq X config preprocess_cfg :
  config !! "preprocess" = Some (VDict preprocess_cfg) →
  build_preprocessor X config
  = Ok (match (group_transform "numeric" (numeric_steps_of preprocess_cfg) (numeric_group X)
               ++ group_transform "categorical" (categorical_steps_of preprocess_cfg)
                    (List.filter (λ c, negb (bool_decide (c ∈ numeric_group X)))
                       (columns X)))%list with
        | [] => Passthrough
        | transformers => ColumnTransformer transformers "drop"
        end).
Proof.
  intros Hcfg. unfold build_preprocessor. simpl. rewrite Hcfg. simpl.
  rewrite select_dtypes_numeric.
  unfold group_transform, numeric_steps_of, categorical_steps_of.
  destruct (numeric_group X) as [|n ns],
    (List.filter _ (columns X)) as [|c cs]; simpl; try done.
  all: by destruct (py_bool _).
Qed.

(** X8. Also for a table in which column names repeat: the column lists
    of the transformers that [build_preprocessor] returns are never empty,
    no name is on two of them, and the names on them are the names of the
    table.  A column that shares its name with a numeric-like column is
    therefore on the numeric list only, whatever its own type. *)
Theorem build_preprocessor_names X config transformers remainder :
  build_preprocessor X config = Ok (ColumnTransformer transformers remainder) →
  remainder = "drop"
  ∧ (∀ t, t ∈ transformers → t.2 ≠ [])
  ∧ (∀ name, name ∈ columns X ↔ ∃ t, t ∈ transformers ∧ name ∈ t.2)
  ∧ (∀ t1 t2 name, t1 ∈ transformers → t2 ∈ transformers →
       name ∈ t1.2 → name ∈ t2.2 → t1 = t2)
  ∧ (∀ t name, t ∈ transformers → t.1.1 = "categorical" →
       name ∈ t.2 → name ∉ numeric_group X).
Proof.
  destruct (config !! "preprocess") as [[| | | | | |preprocess_cfg]|] eqn:Hcfg;
    try (unfold build_preprocessor; simpl; rewrite Hcfg; done).
  rewrite (build_preprocessor_eq _ _ _ Hcfg).
  set (cat := List.filter (λ c, negb (bool_decide (c ∈ numeric_group X))) (columns X)).
  assert (Hcat : ∀ name, name ∈ cat ↔ name ∈ columns X ∧ name ∉ numeric_group X).
  { intros name. unfold cat. rewrite list_elem_of_In, List.filter_In, <-list_elem_of_In.
    by rewrite negb_true_iff, bool_decide_eq_false. }
  assert (Hnum : ∀ name, name ∈ numeric_group X → name ∈ columns X).
  { intros name. apply names_filter_subset. }
  assert (Hcols : ∀ name, name ∈ columns X ↔ name ∈ numeric_group X ∨ name ∈ cat).
  { intros name. rewrite Hcat. destruct (decide (name ∈ numeric_group X)); naive_solver. }
  unfold group_transform.
  destruct (numeric_group X) as [|n ns] eqn:Hn, cat as [|c cs] eqn:Hc; simpl; try done;
    intros [= <- <-]; (split; [done|]).
  - split_and!.
    + by intros t ->%list_elem_of_singleton.
    + intros name. rewrite Hcols. split.
      * intros [?%elem_of_nil|?]; [done|]. eexists. split; [by apply list_elem_of_singleton|done].
      * intros (t & ->%list_elem_of_singleton & ?). by right.
    + by intros t1 t2 name ->%list_elem_of_singleton ->%list_elem_of_singleton.
    + intros t name ->%list_elem_of_singleton _ _. apply not_elem_of_nil.
  - split_and!.
    + by intros t ->%list_elem_of_singleton.
    + intros name. rewrite Hcols. split.
      * intros [?|?%elem_of_nil]; [|done]. eexists. split; [by apply list_elem_of_singleton|done].
      * intros (t & ->%list_elem_of_singleton & ?). by left.
    + by intros t1 t2 name ->%list_elem_of_singleton ->%list_elem_of_singleton.
    + by intros t name ->%list_elem_of_singleton.
  - split_and!.
    + intros t [->|[->|?%elem_of_nil]%elem_of_cons]%elem_of_cons; done.
    + intros name. rewrite Hcols. split.
      * intros [?|?];
          [exists ("numeric", numeric_steps_of preprocess_cfg, n :: ns)
          |exists ("categorical", categorical_steps_of preprocess_cfg, c :: cs)];
          (split; [|done]).
        -- by apply elem_of_cons; left.
        -- apply elem_of_cons; right. by apply elem_of_cons; left.
      * intros (t & [->|[->|?%elem_of_nil]%elem_of_cons]%elem_of_cons & ?); [by left|by right|done].
    + intros t1 t2 name
        [->|[->|?%elem_of_nil]%elem_of_cons]%elem_of_cons
        [->|[->|?%elem_of_nil]%elem_of_cons]%elem_of_cons; simpl; try done.
      * intros Hin1 Hin2. apply Hcat in Hin2 as [_ Hin2]. done.
      * intros Hin1 Hin2. apply Hcat in Hin1 as [_ Hin1]. done.
    + intros t name [->|[->|?%elem_of_nil]%elem_of_cons]%elem_of_cons; simpl; try done.
      intros _ Hin. by apply Hcat in Hin as [_ ?].
Qed.
End routing_by_name.

Lemma build_preprocessor_names_witness :
  ("drop" : string) = "drop"
  ∧ (∀ t, t ∈ [("numeric", [("imputer", SimpleImputer "median"); ("scaler", StandardScaler)],
                ["score"])] → t.2 ≠ [])
  ∧ (∀ name,
       name ∈ columns (mkDataFrame 1 [mkSeries "score" DInt64 [CInt 1];
                                      mkSeries "score" DObject [CStr "high"]])
       ↔ ∃ t, t ∈ [("numeric", [("imputer", SimpleImputer "median");
                                ("scaler", StandardScaler)], ["score"])]
              ∧ name ∈ t.2)
  ∧ (∀ t1 t2 name,
       t1 ∈ [("numeric", [("imputer", SimpleImputer "median"); ("scaler", StandardScaler)],
              ["score"])] →
       t2 ∈ [("numeric", [("imputer", SimpleImputer "median"); ("scaler", StandardScaler)],
              ["score"])] →
       name ∈ t1.2 → name ∈ t2.2 → t1 = t2)
  ∧ (∀ t name,
       t ∈ [("numeric", [("imputer", SimpleImputer "median"); ("scaler", StandardScaler)],
             ["score"])] →
       t.1.1 = "categorical" → name ∈ t.2 →
       name ∉ numeric_group (mkDataFrame 1 [mkSeries "score" DInt64 [CInt 1];
                                            mkSeries "score" DObject [CStr "high"]])).
Proof.
  apply (@build_preprocessor_names demo_builtins
           (mkDataFrame 1 [mkSeries "score" DInt64 [CInt 1];
                           mkSeries "score" DObject [CStr "high"]])
           DEFAULT_CONFIG).
  vm_compute. reflexivity.
Defined.

(** ** Model Trainer: estimator and grids *)

Section model_facts.
Context `{!PyBuiltins, !Sklearn}.


Lemma normalize_key_idem k : normalize_key (normalize_key k) = normalize_key k.
Proof.
  unfold normalize_key. destruct (contains "__" k) eqn:Hk.
  - by rewrite Hk.
  - by destruct k.
Qed.

(** A grid whose names are all namespaced is left as it is. *)
Lemma normalize_items_fixed (g : pydict) :
  (∀ k, is_Some (g !! k) → normalize_key k = k) →
  normalize_items (map_to_list g) = g.
Proof.
  intros Hfix.
  destruct (normalize_items_spec g (map_to_list g) (reflexivity _)) as [Hdom Hval].
  apply map_eq. intros j. destruct (g !! j) as [v|] eqn:Hj.
  - rewrite <-(Hfix j) by eauto. apply Hval; [done|].
    intros k' Hk'. rewrite (Hfix k') by done. rewrite (Hfix j) by eauto. done.
  - apply eq_None_not_Some. intros (k & Hk & Hkj)%Hdom.
    rewrite (Hfix k Hk) in Hkj. subst. rewrite Hj in Hk. by destruct Hk.
Qed.

(** X10. The default grids are already namespaced: normalising the default
    grid of any model type returns it unchanged. *)
Theorem default_param_grid_normalized model_type :
  normalize_param_grid (VDict (default_param_grid model_type))
  = Ok (default_param_grid model_type).
Proof.
  simpl. f_equal. apply normalize_items_fixed. intros k. unfold default_param_grid.
  destruct (String.eqb model_type "random_forest");
    [|destruct (String.eqb model_type "logistic_regression")].
  - rewrite !lookup_insert_is_Some, lookup_empty.
    intros [<-|[_ [<-|[_ [<-|[_ [? [=]]]]]]]]; reflexivity.
  - rewrite !lookup_insert_is_Some, lookup_empty.
    intros [<-|[_ [<-|[_ [? [=]]]]]]; reflexivity.
  - rewrite lookup_empty. by intros [? [=]].
Qed.

(** X11. Normalising a grid a second time changes nothing. *)
Theorem normalize_param_grid_idempotent raw_grid grid :
  normalize_param_grid raw_grid = Ok grid →
  normalize_param_grid (VDict grid) = Ok grid.
Proof.
  destruct raw_grid as [| | | | | |g]; try done. simpl. intros [= <-]. f_equal.
  apply normalize_items_fixed. intros j Hj.
  destruct (normalize_items_spec g (map_to_list g) (reflexivity _)) as [Hdom _].
  apply Hdom in Hj as (k & _ & <-). apply normalize_key_idem.
Qed.

Lemma normalize_fold_size (items : list (string * pyval)) : ∀ acc : pydict,
  (size (foldl normalize_put acc items) ≤ size acc + length items)%nat.
Proof.
  induction items as [|kv items IH]; intros acc; simpl; [lia|].
  etrans; [apply IH|]. unfold normalize_put.
  destruct (acc !! normalize_key kv.1) eqn:Hk.
  - rewrite map_size_insert_Some by done. lia.
  - rewrite map_size_insert_None by done. lia.
Qed.

Lemma normalize_items_dom_ext (g1 g2 : pydict) :
  (∀ j, (∃ k, is_Some (g1 !! k) ∧ normalize_key k = j)
        ↔ (∃ k, is_Some (g2 !! k) ∧ normalize_key k = j)) →
  size (normalize_items (map_to_list g1)) = size (normalize_items (map_to_list g2)).
Proof.
  intros Hext. rewrite <-!size_dom. f_equal. apply set_eq. intros j.
  rewrite !elem_of_dom.
  destruct (normalize_items_spec g1 (map_to_list g1) (reflexivity _)) as [Hdom1 _].
  destruct (normalize_items_spec g2 (map_to_list g2) (reflexivity _)) as [Hdom2 _].
  by rewrite Hdom1, Hdom2.
Qed.

(** X12. A normalised grid never has more entries than the configured
    one, and it has fewer when the configured grid holds a bare name
    together with its namespaced form: one of the two value lists is
    lost. *)
Theorem normalize_param_grid_collision (g grid : pydict) :
  normalize_param_grid (VDict g) = Ok grid →
  (size grid ≤ size g)%nat
  ∧ (∀ k, contains "__" k = false → is_Some (g !! k) → is_Some (g !! ("model__" +:+ k)) →
       (size grid < size g)%nat).
Proof.
  simpl. intros [= <-]. split.
  - etrans; [apply normalize_fold_size|]. rewrite map_size_empty, length_map_to_list. lia.
  - intros k Hbare [v Hk] Hns.
    assert (Hnk : normalize_key k = "model__" +:+ k) by (unfold normalize_key; by rewrite Hbare).
    assert (Hnn : normalize_key ("model__" +:+ k) = "model__" +:+ k)
      by (rewrite <-Hnk; apply normalize_key_idem).
    assert (Hne : "model__" +:+ k ≠ k).
    { intros Heq. rewrite <-Heq in Hbare.
      assert (contains "__" ("model__" +:+ k) = true) by (by destruct k). congruence. }
    rewrite (normalize_items_dom_ext g (delete k g)).
    + eapply Nat.le_lt_trans; [apply normalize_fold_size|].
      rewrite map_size_empty, length_map_to_list. simpl.
      assert (Hdel : size (delete k g) = pred (size g))
        by (apply map_size_delete_Some; eauto).
      assert (size g ≠ 0) by (apply (map_size_ne_0_lookup_2 g k); eauto).
      lia.
    + intros j. split.
      * intros (k' & Hk' & <-). destruct (decide (k' = k)) as [->|Hkk].
        -- exists ("model__" +:+ k). rewrite lookup_delete_ne by done. by rewrite Hnn, Hnk.
        -- exists k'. by rewrite lookup_delete_ne.
      * intros (k' & Hk' & <-). exists k'. split; [|done].
        destruct (decide (k' = k)) as [->|Hkk];
          [by rewrite lookup_delete_eq in Hk'; destruct Hk'|].
        by rewrite lookup_delete_ne in Hk'.
Qed.
End model_facts.


(** A type that is not supported. *)
Example build_model_unsupported :
  @build_model demo_builtins
    (<["model" := VDict (<["type" := VStr "XGBoost"]> ∅)]> DEFAULT_CONFIG)
  = Raise (ValueError "Unsupported model type: xgboost").
Proof. vm_compute. reflexivity. Qed.

Lemma normalize_param_grid_idempotent_witness :
  normalize_param_grid (VDict (normalize_items (map_to_list demo_grid)))
  = Ok (normalize_items (map_to_list demo_grid)).
Proof.
  apply (normalize_param_grid_idempotent (VDict demo_grid)). reflexivity.
Defined.

Lemma normalize_param_grid_collision_witness :
  (size (normalize_items (map_to_list
           (<["C" := VList [VFloat 0.1]]> (<["model__C" := VList [VFloat 10]]> ∅))))
   ≤ size (<["C" := VList [VFloat 0.1]]> (<["model__C" := VList [VFloat 10]]> ∅) : pydict))%nat
  ∧ (∀ k, contains "__" k = false →
       is_Some ((<["C" := VList [VFloat 0.1]]> (<["model__C" := VList [VFloat 10]]> ∅) : pydict)
                  !! k) →
       is_Some ((<["C" := VList [VFloat 0.1]]> (<["model__C" := VList [VFloat 10]]> ∅) : pydict)
                  !! ("model__" +:+ k)) →
       (size (normalize_items (map_to_list
                (<["C" := VList [VFloat 0.1]]> (<["model__C" := VList [VFloat 10]]> ∅))))
        < size (<["C" := VList [VFloat 0.1]]> (<["model__C" := VList [VFloat 10]]> ∅)
                  : pydict))%nat).
Proof.
  apply (normalize_param_grid_collision
           (<["C" := VList [VFloat 0.1]]> (<["model__C" := VList [VFloat 10]]> ∅))).
  reflexivity.
Defined.

Section train_facts.
Context `{!PyBuiltins, !Sklearn}.

(** X13. With the search enabled, a model that [train_model] returns is
    always the best estimator of a grid search over a grid that is not
    empty, and the report is the search report: the branch that fits
    without a search on an empty grid is never taken, because a model type
    without a default grid is rejected before.  The report says that the
    default grid was used exactly when the configured grid is absent or
    false. *)
Theorem train_model_enabled_searches X y config hpo_cfg est report :
  config !! "hpo" = Some (VDict hpo_cfg) →
  hpo_enabled hpo_cfg = true →
  train_model X y config = Ok (est, report) →
  ∃ pre model grid cv best_score best_params,
    build_preprocessor X config = Ok pre
    ∧ build_model config = Ok model
    ∧ cv_folds_of hpo_cfg = Ok cv
    ∧ grid ≠ ∅
    ∧ grid_search_fit (mkPipeline pre model) grid cv (scoring_of hpo_cfg) X y
      = Ok (est, best_score, best_params)
    ∧ report = search_report (negb (py_bool (default VNone (hpo_cfg !! "param_grid"))))
                 cv (scoring_of hpo_cfg) best_score best_params.
Proof.
  intros Hhpo Hen. unfold train_model.
  destruct (model_type_of config) as [mt|] eqn:Hmt; simpl; [|done].
  destruct (build_preprocessor X config) as [pre|] eqn:Hpre; simpl; [|done].
  destruct (build_model config) as [model|] eqn:Hmodel; simpl; [|done].
  rewrite Hhpo. simpl. unfold hpo_enabled in Hen. rewrite Hen. simpl.
  destruct (resolve_grid (VDict hpo_cfg) mt) as [[configured_grid grid]|] eqn:Hgrid;
    simpl; [|done].
  pose proof (resolved_grid_nonempty _ _ _ _ _ _ Hmodel Hmt Hgrid) as Hne.
  fold (cv_folds_of hpo_cfg). destruct (cv_folds_of hpo_cfg) as [cv|]; simpl; [|done].
  fold (scoring_of hpo_cfg). unfold fit_or_search.
  apply py_bool_dict in Hne as Htrue. rewrite Htrue. simpl.
  destruct (grid_search_fit _ _ _ _ _ _) as [[[best score] params]|] eqn:Hsearch;
    simpl; [|done].
  intros [= <- <-]. exists pre, model, grid, cv, score, params.
  split_and!; try done. f_equal.
  unfold resolve_grid in Hgrid. simpl in Hgrid.
  destruct (py_bool (default VNone (hpo_cfg !! "param_grid"))) eqn:Hv; simpl in Hgrid.
  - rewrite Hv in Hgrid. destruct (normalize_param_grid _); [|done].
    injection Hgrid as <- <-. by rewrite Hv.
  - by injection Hgrid as <- <-.
Qed.

(** X14. A configured grid that is not false and not a mapping (a list, a
    string, a number) makes [train_model] fail with [AttributeError] when
    the search is enabled. *)
Theorem train_model_grid_not_mapping X y config hpo_cfg pre model mt v :
  model_type_of config = Ok mt →
  build_preprocessor X config = Ok pre →
  build_model config = Ok model →
  config !! "hpo" = Some (VDict hpo_cfg) →
  hpo_enabled hpo_cfg = true →
  hpo_cfg !! "param_grid" = Some v →
  py_bool v = true →
  (∀ g, v ≠ VDict g) →
  train_model X y config = Raise AttributeError.
Proof.
  intros Hmt Hpre Hmodel Hhpo Hen Hv Htrue Hnot.
  rewrite (train_model_eq _ _ _ _ _ _ _ Hmt Hpre Hmodel Hhpo), Hen.
  unfold resolve_grid. simpl. rewrite Hv. simpl. rewrite Htrue, Htrue.
  destruct v; try done. by destruct (Hnot d).
Qed.
End train_facts.

Lemma train_model_enabled_searches_witness :
  ∃ pre model grid cv best_score best_params,
    @build_preprocessor demo_builtins demo_features demo_grid_config = Ok pre
    ∧ @build_model demo_builtins demo_grid_config = Ok model
    ∧ @cv_folds_of demo_builtins demo_hpo_cfg = Ok cv
    ∧ grid ≠ ∅
    ∧ grid_search_fit (Sklearn := demo_sklearn) (mkPipeline pre model) grid cv
        (@scoring_of demo_builtins demo_hpo_cfg) demo_features demo_label
      = Ok ("best", best_score, best_params)
    ∧ search_report false 3 "f1_weighted" 0.9 (normalize_items (map_to_list demo_grid))
      = search_report (negb (py_bool (default VNone (demo_hpo_cfg !! "param_grid"))))
          cv (@scoring_of demo_builtins demo_hpo_cfg) best_score best_params.
Proof.
  apply (@train_model_enabled_searches demo_builtins demo_sklearn demo_features demo_label
           demo_grid_config demo_hpo_cfg "best"
           (search_report false 3 "f1_weighted" 0.9 (normalize_items (map_to_list demo_grid)))).
  - reflexivity.
  - reflexivity.
  - vm_compute. reflexivity.
Defined.

Lemma train_model_grid_not_mapping_witness :
  @train_model demo_builtins demo_sklearn demo_features demo_label
    (<["hpo" := VDict (<["param_grid" := VList [VStr "C"]]> ∅)]> DEFAULT_CONFIG)
  = Raise AttributeError.
Proof.
  apply (@train_model_grid_not_mapping demo_builtins demo_sklearn demo_features demo_label
           (<["hpo" := VDict (<["param_grid" := VList [VStr "C"]]> ∅)]> DEFAULT_CONFIG)
           (<["param_grid" := VList [VStr "C"]]> ∅)
           demo_preprocessor (RandomForestClassifier 200 42) "random_forest"
           (VList [VStr "C"])).
  - vm_compute. reflexivity.
  - vm_compute. reflexivity.
  - vm_compute. reflexivity.
  - reflexivity.
  - reflexivity.
  - reflexivity.
  - reflexivity.
  - discriminate.
Defined.

(** ** Evaluator and snapshot *)

Section evaluate_facts.
Context `{!PyBuiltins, !Sklearn}.

Lemma evaluate_model_inv model X_test y_test metrics :
  evaluate_model model X_test y_test = Ok metrics →
  ∃ accuracy precision recall f1,
    predict_scores model X_test y_test = Ok (accuracy, precision, recall, f1)
    ∧ metrics = <["accuracy" := VFloat accuracy]> (
                <["precision_weighted" := VFloat precision]> (
                <["recall_weighted" := VFloat recall]> (
                <["f1_weighted" := VFloat f1]> (
                <["rows_tested" := VInt (Z.of_nat (length (s_values y_test)))]> ∅)))).
Proof.
  unfold evaluate_model.
  destruct (predict_scores model X_test y_test) as [[[[a p] r] f]|]; simpl; [|done].
  intros [= <-]. by exists a, p, r, f.
Qed.

(** X15. A metrics record that [evaluate_model] returns states, as
    floats, the accuracy that the predictions score and the weighted
    precision, recall and F1, and the number of test rows, and nothing
    else; the promotion gate reads that accuracy as the candidate's, so
    every pipeline run states its accuracy. *)
Theorem evaluate_model_metrics model X_test y_test metrics :
  evaluate_model model X_test y_test = Ok metrics →
  ∃ accuracy precision recall f1,
    predict_scores model X_test y_test = Ok (accuracy, precision, recall, f1)
    ∧ metrics !! "accuracy" = Some (VFloat accuracy)
    ∧ metrics !! "precision_weighted" = Some (VFloat precision)
    ∧ metrics !! "recall_weighted" = Some (VFloat recall)
    ∧ metrics !! "f1_weighted" = Some (VFloat f1)
    ∧ metrics !! "rows_tested" = Some (VInt (Z.of_nat (length (s_values y_test))))
    ∧ size metrics = 5
    ∧ candidate_accuracy metrics = Ok accuracy
    ∧ states_accuracy metrics.
Proof.
  intros (a & p & r & f & Hscores & ->)%evaluate_model_inv.
  exists a, p, r, f. split; [done|]. unfold candidate_accuracy, states_accuracy.
  rewrite lookup_insert_eq.
  split_and!; try done;
    try (by repeat first [rewrite lookup_insert_eq | rewrite lookup_insert_ne by done]).
  by eexists _, a.
Qed.
End evaluate_facts.

Lemma evaluate_model_metrics_witness :
  ∃ accuracy precision recall f1,
    predict_scores (Sklearn := demo_sklearn) "best" demo_features demo_label
      = Ok (accuracy, precision, recall, f1)
    ∧ demo_eval_metrics !! "accuracy" = Some (VFloat accuracy)
    ∧ demo_eval_metrics !! "precision_weighted" = Some (VFloat precision)
    ∧ demo_eval_metrics !! "recall_weighted" = Some (VFloat recall)
    ∧ demo_eval_metrics !! "f1_weighted" = Some (VFloat f1)
    ∧ demo_eval_metrics !! "rows_tested"
      = Some (VInt (Z.of_nat (length (s_values demo_label))))
    ∧ size (demo_eval_metrics) = 5
    ∧ @candidate_accuracy demo_builtins (demo_eval_metrics) = Ok accuracy
    ∧ @states_accuracy demo_builtins (demo_eval_metrics).
Proof.
  apply (@evaluate_model_metrics demo_builtins demo_sklearn "best" demo_features demo_label).
  vm_compute. reflexivity.
Defined.

Section snapshot_frame.
Implicit Types (w : world) (q run_dir : path).

Lemma save_preprocess_snapshot_inv X_train X_test y_train y_test run_dir w report w' :
  save_preprocess_snapshot X_train X_test y_train y_test run_dir w = Ok (report, w') →
  ∃ train_df test_df,
    df_setitem "target" (s_dtype y_train) (s_values y_train) X_train = Ok train_df
    ∧ df_setitem "target" (s_dtype y_test) (s_values y_test) X_test = Ok test_df
    ∧ report = <["train_csv" := VStr (path_str (run_dir // "preprocessed" // "train.csv"))]> (
               <["test_csv" := VStr (path_str (run_dir // "preprocessed" // "test.csv"))]> (
               <["train_rows" := VInt (Z.of_nat (df_len train_df))]> (
               <["test_rows" := VInt (Z.of_nat (df_len test_df))]> ∅)))
    ∧ w' = to_csv (run_dir // "preprocessed" // "test.csv") test_df
             (to_csv (run_dir // "preprocessed" // "train.csv") train_df
                (ensure_dir (run_dir // "preprocessed") w)).
Proof.
  unfold save_preprocess_snapshot.
  destruct (df_setitem _ _ _ X_train) as [train_df|]; simpl; [|done].
  destruct (df_setitem _ _ _ X_test) as [test_df|]; simpl; [|done].
  intros [= <- <-]. by exists train_df, test_df.
Qed.

(** X16. A snapshot that is written consists of exactly two files,
    [preprocessed/train.csv] and [preprocessed/test.csv] under the run
    directory: every other file is as before and the clock is not read.
    The report states the paths of the two files and the row counts of the
    tables in them. *)
Theorem save_preprocess_snapshot_frame X_train X_test y_train y_test run_dir w report w' :
  save_preprocess_snapshot X_train X_test y_train y_test run_dir w = Ok (report, w') →
  (∀ q, q ≠ run_dir // "preprocessed" // "train.csv" →
        q ≠ run_dir // "preprocessed" // "test.csv" →
        w_files w' !! q = w_files w !! q)
  ∧ w_ticks w' = w_ticks w
  ∧ ∃ train_df test_df,
      w_files w' !! (run_dir // "preprocessed" // "train.csv") = Some (FCsv train_df)
      ∧ w_files w' !! (run_dir // "preprocessed" // "test.csv") = Some (FCsv test_df)
      ∧ report !! "train_rows" = Some (VInt (Z.of_nat (df_len train_df)))
      ∧ report !! "test_rows" = Some (VInt (Z.of_nat (df_len test_df)))
      ∧ report !! "train_csv"
        = Some (VStr (path_str (run_dir // "preprocessed" // "train.csv")))
      ∧ report !! "test_csv"
        = Some (VStr (path_str (run_dir // "preprocessed" // "test.csv"))).
Proof.
  intros (train_df & test_df & _ & _ & -> & ->)%save_preprocess_snapshot_inv.
  split_and!.
  - intros q Htrain Htest. unfold to_csv. simpl. by rewrite !lookup_insert_ne.
  - done.
  - exists train_df, test_df. unfold to_csv. simpl. split_and!; try done.
    + rewrite lookup_insert_ne, lookup_insert_eq; [done|].
      unfold path_div. intros Heq%(inj (app _)). discriminate.
    + apply lookup_insert_eq.
Qed.
End snapshot_frame.

Lemma save_preprocess_snapshot_frame_witness :
  (∀ q, q ≠ ["ml/artifacts"; "runs"; "r1"] // "preprocessed" // "train.csv" →
        q ≠ ["ml/artifacts"; "runs"; "r1"] // "preprocessed" // "test.csv" →
        w_files
          (to_csv (["ml/artifacts"; "runs"; "r1"] // "preprocessed" // "test.csv")
             (mkDataFrame 1 (set_column (mkSeries "target" DInt64 [CInt 1])
                               (df_cols (df_iloc [0] demo_features))))
             (to_csv (["ml/artifacts"; "runs"; "r1"] // "preprocessed" // "train.csv")
                (mkDataFrame 3 (set_column (mkSeries "target" DInt64 (s_values demo_label))
                                  (df_cols demo_features)))
                (ensure_dir (["ml/artifacts"; "runs"; "r1"] // "preprocessed") demo_disk)))
          !! q
        = w_files demo_disk !! q)
  ∧ w_ticks
      (to_csv (["ml/artifacts"; "runs"; "r1"] // "preprocessed" // "test.csv")
         (mkDataFrame 1 (set_column (mkSeries "target" DInt64 [CInt 1])
                           (df_cols (df_iloc [0] demo_features))))
         (to_csv (["ml/artifacts"; "runs"; "r1"] // "preprocessed" // "train.csv")
            (mkDataFrame 3 (set_column (mkSeries "target" DInt64 (s_values demo_label))
                              (df_cols demo_features)))
            (ensure_dir (["ml/artifacts"; "runs"; "r1"] // "preprocessed") demo_disk)))
    = w_ticks demo_disk
  ∧ ∃ train_df test_df,
      w_files
        (to_csv (["ml/artifacts"; "runs"; "r1"] // "preprocessed" // "test.csv")
           (mkDataFrame 1 (set_column (mkSeries "target" DInt64 [CInt 1])
                             (df_cols (df_iloc [0] demo_features))))
           (to_csv (["ml/artifacts"; "runs"; "r1"] // "preprocessed" // "train.csv")
              (mkDataFrame 3 (set_column (mkSeries "target" DInt64 (s_values demo_label))
                                (df_cols demo_features)))
              (ensure_dir (["ml/artifacts"; "runs"; "r1"] // "preprocessed") demo_disk)))
        !! (["ml/artifacts"; "runs"; "r1"] // "preprocessed" // "train.csv")
      = Some (FCsv train_df)
      ∧ w_files
          (to_csv (["ml/artifacts"; "runs"; "r1"] // "preprocessed" // "test.csv")
             (mkDataFrame 1 (set_column (mkSeries "target" DInt64 [CInt 1])
                               (df_cols (df_iloc [0] demo_features))))
             (to_csv (["ml/artifacts"; "runs"; "r1"] // "preprocessed" // "train.csv")
                (mkDataFrame 3 (set_column (mkSeries "target" DInt64 (s_values demo_label))
                                  (df_cols demo_features)))
                (ensure_dir (["ml/artifacts"; "runs"; "r1"] // "preprocessed") demo_disk)))
          !! (["ml/artifacts"; "runs"; "r1"] // "preprocessed" // "test.csv")
        = Some (FCsv test_df)
      ∧ (<["train_csv" := VStr "ml/artifacts/runs/r1/preprocessed/train.csv"]> (
         <["test_csv" := VStr "ml/artifacts/runs/r1/preprocessed/test.csv"]> (
         <["train_rows" := VInt 3]> (<["test_rows" := VInt 1]> ∅))) : pydict)
          !! "train_rows" = Some (VInt (Z.of_nat (df_len train_df)))
      ∧ (<["train_csv" := VStr "ml/artifacts/runs/r1/preprocessed/train.csv"]> (
         <["test_csv" := VStr "ml/artifacts/runs/r1/preprocessed/test.csv"]> (
         <["train_rows" := VInt 3]> (<["test_rows" := VInt 1]> ∅))) : pydict)
          !! "test_rows" = Some (VInt (Z.of_nat (df_len test_df)))
      ∧ (<["train_csv" := VStr "ml/artifacts/runs/r1/preprocessed/train.csv"]> (
         <["test_csv" := VStr "ml/artifacts/runs/r1/preprocessed/test.csv"]> (
         <["train_rows" := VInt 3]> (<["test_rows" := VInt 1]> ∅))) : pydict)
          !! "train_csv"
        = Some (VStr (path_str (["ml/artifacts"; "runs"; "r1"] // "preprocessed" // "train.csv")))
      ∧ (<["train_csv" := VStr "ml/artifacts/runs/r1/preprocessed/train.csv"]> (
         <["test_csv" := VStr "ml/artifacts/runs/r1/preprocessed/test.csv"]> (
         <["train_rows" := VInt 3]> (<["test_rows" := VInt 1]> ∅))) : pydict)
          !! "test_csv"
        = Some (VStr (path_str (["ml/artifacts"; "runs"; "r1"] // "preprocessed" // "test.csv"))).
Proof.
  apply (save_preprocess_snapshot_frame demo_features (df_iloc [0] demo_features)
           demo_label (s_iloc [0] demo_label) ["ml/artifacts"; "runs"; "r1"] demo_disk).
  vm_compute. reflexivity.
Defined.

Section run_facts.
Context `{!PyBuiltins, !Env, !Sklearn, !Formatting}.
Implicit Types (w : world) (config summary metrics : pydict) (s reason : string).

(** The text of the summary of a run never fails to be written: the
    summary that [run_pipeline] builds has every entry that is read, and
    the metrics of [evaluate_model] are numbers. *)
Lemma write_summary_markdown_text p summary w w' :
  write_summary_markdown p summary w = Ok w' →
  ∃ text, w' = set_files (<[p := FText text]> (w_files (ensure_dir (parent p) w)))
                 (ensure_dir (parent p) w).
Proof.
  unfold write_summary_markdown, mbind, result_bind, rbind. intros Hw.
  repeat match type of Hw with
         | context [match ?x with _ => _ end] => destruct x eqn:?; try discriminate
         end.
  injection Hw as <-. eauto.
Qed.

(** A run that returns went through each stage in turn, each on the world
    that the one before left. *)
Lemma run_pipeline_inv config reason w summary w' :
  run_pipeline config reason w = Ok (summary, w') →
  ∃ s X y X_train X_test y_train y_test preprocess_report w1 model hpo_report metrics
    promotion w2 text,
    production_dir_of config = Ok ([s] // "production")
    ∧ load_dataset config (run_started s w) = Ok (X, y)
    ∧ split_dataset X y config = Ok (X_train, X_test, y_train, y_test)
    ∧ save_preprocess_snapshot X_train X_test y_train y_test (run_dir_of s w)
        (run_started s w) = Ok (preprocess_report, w1)
    ∧ train_model X_train y_train config = Ok (model, hpo_report)
    ∧ evaluate_model model X_test y_test = Ok metrics
    ∧ maybe_promote (run_dir_of s w // "model.joblib") metrics config (make_run_id w).1
        (run_staged (run_dir_of s w) model metrics hpo_report w1) = Ok (promotion, w2)
    ∧ summary = run_summary_record (make_run_id w).1 reason (utc_now_iso w2).1
                  metrics hpo_report preprocess_report promotion (run_dir_of s w)
    ∧ w' = run_recorded [s] (run_dir_of s w) summary text (utc_now_iso w2).2.
Proof.
  unfold run_pipeline, production_dir_of. unfold mbind at 1 2 3, result_bind. simpl.
  destruct (config !! "artifacts") as [artifacts|]; simpl; [|done].
  destruct (py_getitem artifacts "base_dir") as [base|]; simpl; [|done].
  destruct base as [| | | |s| |]; simpl; try done.
  fold (run_dir_of s w). fold (run_started s w).
  destruct (load_dataset config _) as [[X y]|] eqn:Hload; simpl; [|done].
  destruct (split_dataset X y config) as [[[[X_train X_test] y_train] y_test]|] eqn:Hsplit;
    simpl; [|done].
  destruct (save_preprocess_snapshot _ _ _ _ _ _) as [[preprocess_report w1]|] eqn:Hsnap;
    simpl; [|done].
  destruct (train_model _ _ _) as [[model hpo_report]|] eqn:Htrain; simpl; [|done].
  destruct (evaluate_model _ _ _) as [metrics|] eqn:Heval; simpl; [|done].
  fold (run_staged (run_dir_of s w) model metrics hpo_report w1).
  destruct (maybe_promote _ _ _ _ _) as [[promotion w2]|] eqn:Hgate; simpl; [|done].
  destruct (write_summary_markdown _ _ _) as [w3|] eqn:Htext; simpl; [|done].
  intros [= <- <-].
  apply write_summary_markdown_text in Htext as [text ->].
  exists s, X, y, X_train, X_test, y_train, y_test, preprocess_report, w1, model, hpo_report,
    metrics, promotion, w2, text.
  by split_and!.
Qed.
End run_facts.
Section run_world.
Context `{!PyBuiltins, !Env, !Sklearn, !Formatting}.
Implicit Types (w : world) (config summary metrics : pydict) (s reason : string).

(** What the gate leaves on disk, by its decision. *)
Lemma maybe_promote_files model_path metrics config run_id w promotion w2 dir :
  production_dir_of config = Ok dir →
  maybe_promote model_path metrics config run_id w = Ok (promotion, w2) →
  ∃ t p c,
    threshold_of config = Ok t ∧ production_accuracy_at dir w = Ok p
    ∧ candidate_accuracy metrics = Ok c
    ∧ promotion = promotion_record (float_ge c t && float_ge c p) t p c
    ∧ if float_ge c t && float_ge c p then
        ∃ content,
          w_files w !! model_path = Some content
          ∧ w_files w2
            = <[dir // "metrics.json" :=
                  FJson (<["promoted_at" := VStr (clock_iso (w_ticks w))]> (
                         <["run_id" := VStr run_id]> metrics))]> (
              <[dir // "model.joblib" := content]> (w_files w))
      else w_files w2 = w_files w.
Proof.
  intros Hdir. rewrite maybe_promote_eq, Hdir. simpl.
  destruct (threshold_of config) as [t|]; simpl; [|done].
  destruct (production_accuracy_at dir w) as [p|]; simpl; [|done].
  destruct (candidate_accuracy metrics) as [c|]; simpl; [|done].
  destruct (float_ge c t && float_ge c p) eqn:Hb.
  - destruct (w_files w !! model_path) as [content|] eqn:Hmodel; [|done].
    intros [= <- <-]. exists t, p, c. rewrite Hb. split_and!; try done.
    by exists content.
  - intros [= <- <-]. exists t, p, c. rewrite Hb. by split_and!.
Qed.

(** Reading a JSON file depends on the file and on whether its path is a
    directory. *)
Lemma read_json_ext q w1 w2 :
  w_files w1 !! q = w_files w2 !! q → (q ∈ w_dirs w1 ↔ q ∈ w_dirs w2) →
  read_json q w1 = read_json q w2.
Proof.
  intros Hfile Hdir. unfold read_json, exists_. rewrite Hfile.
  by rewrite (bool_decide_ext _ _ Hdir).
Qed.


Lemma path_div_inj p q a b : p // a = q // b → p = q ∧ a = b.
Proof. unfold path_div. intros Heq. apply app_inj_tail in Heq. done. Qed.


(** The gate writes nothing but the two files of the production slot. *)
Lemma maybe_promote_frame model_path metrics config run_id w promotion w2 dir q :
  production_dir_of config = Ok dir →
  maybe_promote model_path metrics config run_id w = Ok (promotion, w2) →
  q ≠ dir // "metrics.json" → q ≠ dir // "model.joblib" →
  w_files w2 !! q = w_files w !! q.
Proof.
  intros Hdir Hgate Hmetrics Hmodel.
  apply (maybe_promote_files _ _ _ _ _ _ _ _ Hdir) in Hgate
    as (t & p & c & _ & _ & _ & _ & Hfiles).
  destruct (float_ge c t && float_ge c p).
  - destruct Hfiles as (content & _ & ->). by rewrite !lookup_insert_ne.
  - by rewrite Hfiles.
Qed.

Ltac path_ne := unfold run_dir_of, path_div; simpl; by intros [=].

(** X17. A run that returns has left its record on disk: the summary it
    returns is the content of [summary.json] in the run directory
    [<base>/runs/<run id>] and of [<base>/latest_run.json]; the model, the
    metrics and the search report are in [model.joblib], [metrics.json] and
    [hpo.json] of the run directory, none of them overwritten by the later
    steps; the summary names the run identifier drawn at the start and the
    reason given, and holds the same metrics and search report as the
    files. *)
Theorem run_pipeline_records config reason w summary w' :
  run_pipeline config reason w = Ok (summary, w') →
  ∃ s model metrics hpo_report,
    production_dir_of config = Ok ([s] // "production")
    ∧ w_files w' !! ([s] // "latest_run.json") = Some (FJson summary)
    ∧ w_files w' !! (run_dir_of s w // "summary.json") = Some (FJson summary)
    ∧ w_files w' !! (run_dir_of s w // "model.joblib") = Some (FBytes (joblib_dumps model))
    ∧ w_files w' !! (run_dir_of s w // "metrics.json") = Some (FJson metrics)
    ∧ w_files w' !! (run_dir_of s w // "hpo.json") = Some (FJson hpo_report)
    ∧ summary !! "run_id" = Some (VStr (make_run_id w).1)
    ∧ summary !! "reason" = Some (VStr reason)
    ∧ summary !! "metrics" = Some (VDict metrics)
    ∧ summary !! "hpo" = Some (VDict hpo_report).
Proof.
  intros (s & X & y & X_train & X_test & y_train & y_test & preprocess_report & w1 & model
          & hpo_report & metrics & promotion & w2 & text & Hdir & Hload & Hsplit & Hsnap
          & Htrain & Heval & Hgate & -> & ->)%run_pipeline_inv.
  exists s, model, metrics, hpo_report.
  pose proof (λ q, maybe_promote_frame _ _ _ _ _ _ _ _ q Hdir Hgate) as Hframe.
  split; [done|]. split; [apply lookup_insert_eq|].
  unfold run_recorded. cbn [w_files write_json set_files ensure_dir utc_now_iso snd].
  split_and!; try done.
  - rewrite lookup_insert_ne by path_ne. rewrite lookup_insert_ne by path_ne.
    apply lookup_insert_eq.
  - do 3 (rewrite lookup_insert_ne by path_ne).
    rewrite Hframe by path_ne. unfold run_staged. simpl.
    do 2 (rewrite lookup_insert_ne by path_ne). apply lookup_insert_eq.
  - do 3 (rewrite lookup_insert_ne by path_ne).
    rewrite Hframe by path_ne. unfold run_staged. simpl.
    rewrite lookup_insert_ne by path_ne. apply lookup_insert_eq.
  - do 3 (rewrite lookup_insert_ne by path_ne).
    rewrite Hframe by path_ne. unfold run_staged. simpl.
    apply lookup_insert_eq.
Qed.

(** Until the gate runs, a run touches neither the files nor the
    directories of the production slot. *)
Lemma run_staged_production_accuracy s w X_train X_test y_train y_test report w1 model
    metrics hpo_report :
  save_preprocess_snapshot X_train X_test y_train y_test (run_dir_of s w) (run_started s w)
  = Ok (report, w1) →
  production_accuracy_at ([s] // "production")
    (run_staged (run_dir_of s w) model metrics hpo_report w1)
  = production_accuracy_at ([s] // "production") w.
Proof.
  intros (train_df & test_df & _ & _ & _ & ->)%save_preprocess_snapshot_inv.
  unfold production_accuracy_at. f_equal. apply read_json_ext.
  - unfold run_staged, to_csv. simpl. by do 5 (rewrite lookup_insert_ne by path_ne).
  - unfold run_staged, to_csv. simpl.
    rewrite !elem_of_union, !elem_of_singleton.
    split; [|tauto]. intros [Heq|[Heq|[Heq|[Heq|?]]]]; [exfalso..|done]; revert Heq; path_ne.
Qed.

(** X18. The production slot after a full run.  The gate inside the run
    compares the accuracy of the run's own metrics with the threshold and
    with the production accuracy as it was before the run started: nothing
    the run writes earlier touches the slot.  When the run is promoted, the
    production model is the model file of this run and the production
    record is the run's metrics with [run_id] set to this run and a
    [promoted_at] stamp; when it is not, the production model and record
    are the files they were before the run. *)
Theorem run_pipeline_production config reason w summary w' :
  run_pipeline config reason w = Ok (summary, w') →
  ∃ s metrics t p c,
    production_dir_of config = Ok ([s] // "production")
    ∧ summary !! "metrics" = Some (VDict metrics)
    ∧ threshold_of config = Ok t
    ∧ production_accuracy_at ([s] // "production") w = Ok p
    ∧ candidate_accuracy metrics = Ok c
    ∧ summary !! "promotion"
      = Some (VDict (promotion_record (float_ge c t && float_ge c p) t p c))
    ∧ if float_ge c t && float_ge c p then
        w_files w' !! ([s] // "production" // "model.joblib")
        = w_files w' !! (run_dir_of s w // "model.joblib")
        ∧ ∃ m now,
            w_files w' !! ([s] // "production" // "metrics.json") = Some (FJson m)
            ∧ m !! "run_id" = Some (VStr (make_run_id w).1)
            ∧ m !! "promoted_at" = Some (VStr now)
            ∧ ∀ k, k ≠ "run_id" → k ≠ "promoted_at" → m !! k = metrics !! k
      else
        w_files w' !! ([s] // "production" // "model.joblib")
        = w_files w !! ([s] // "production" // "model.joblib")
        ∧ w_files w' !! ([s] // "production" // "metrics.json")
          = w_files w !! ([s] // "production" // "metrics.json").
Proof.
  intros (s & X & y & X_train & X_test & y_train & y_test & preprocess_report & w1 & model
          & hpo_report & metrics & promotion & w2 & text & Hdir & Hload & Hsplit & Hsnap
          & Htrain & Heval & Hgate & -> & ->)%run_pipeline_inv.
  apply (maybe_promote_files _ _ _ _ _ _ _ _ Hdir) in Hgate
    as (t & p & c & Ht & Hp & Hc & -> & Hfiles).
  rewrite (run_staged_production_accuracy _ _ _ _ _ _ _ _ _ _ _ Hsnap) in Hp.
  exists s, metrics, t, p, c. split_and!; try done.
  unfold run_recorded. cbn [w_files write_json set_files ensure_dir utc_now_iso snd].
  destruct (float_ge c t && float_ge c p).
  - destruct Hfiles as (content & Hcontent & ->). split.
    + do 3 (rewrite lookup_insert_ne by path_ne).
      rewrite lookup_insert_ne by path_ne. rewrite lookup_insert_eq.
      do 3 (rewrite lookup_insert_ne by path_ne).
      do 2 (rewrite lookup_insert_ne by path_ne). by rewrite Hcontent.
    + eexists _, _. split.
      { do 3 (rewrite lookup_insert_ne by path_ne). apply lookup_insert_eq. }
      split_and!.
      * rewrite lookup_insert_ne by done. apply lookup_insert_eq.
      * apply lookup_insert_eq.
      * intros k ??. by rewrite !lookup_insert_ne.
  - rewrite Hfiles.
    apply save_preprocess_snapshot_inv in Hsnap as (train_df & test_df & _ & _ & _ & ->).
    unfold run_staged, to_csv. simpl.
    split; by do 8 (rewrite lookup_insert_ne by path_ne).
Qed.
End run_world.
Section partial_run_facts.
Context `{!PyBuiltins, !Env, !Sklearn}.
Implicit Types (w : world) (config payload : pydict) (s : string) (q : path).


End partial_run_facts.
Section open_endpoint.
Context `{!PyBuiltins, !Env, !Sklearn, !Formatting}.

(** X21. With no bearer token configured (the configured value is empty
    once trimmed) the train endpoint checks nothing: whatever credential a
    request carries, or none, the pipeline runs with the reason "api"; the
    response carries its run identifier and metrics, and the only errors
    are those of the pipeline. *)
Theorem trigger_train_no_token config_path authorization w cfg :
  load_config config_path w = Ok cfg →
  token_required_of cfg = Ok "" →
  match run_pipeline cfg "api" w with
  | Ok (summary, w') =>
      ∃ run_id metrics,
        summary !! "run_id" = Some (VStr run_id)
        ∧ summary !! "metrics" = Some (VDict metrics)
        ∧ trigger_train config_path authorization w
          = Ok (train_response (VStr run_id) (VDict metrics), w')
  | Raise e => trigger_train config_path authorization w = Raise e
  end.
Proof.
  intros Hcfg Htok. rewrite (trigger_train_eq _ _ _ _ _ Hcfg Htok).
  replace (authorize authorization "") with (Ok ()) by done.
  destruct (run_pipeline cfg "api" w) as [[summary w']|] eqn:Hrun; [|done].
  destruct (run_pipeline_summary _ _ _ _ _ Hrun) as (run_id & metrics & Hid & Hm).
  exists run_id, metrics. simpl. by rewrite Hid, Hm.
Qed.

(** X22. The endpoint is open by default: when the configuration file is
    empty, or is a mapping without an [api] section, the loaded
    configuration has the blank token of the defaults, and the response to
    a request does not depend on its credential. *)
Theorem default_token_blank config_path w doc :
  w_files w !! config_path = Some (FYaml doc) →
  py_bool doc = false ∨ (∃ override, doc = VDict override ∧ override !! "api" = None) →
  ∃ cfg,
    load_config config_path w = Ok cfg
    ∧ token_required_of cfg = Ok ""
    ∧ ∀ authorization,
        trigger_train config_path authorization w = trigger_train config_path None w.
Proof.
  intros Hfile Hdoc.
  assert (∃ override, load_config config_path w = Ok (deep_merge DEFAULT_CONFIG override)
                      ∧ override !! "api" = None) as (override & Hcfg & Hapi).
  { unfold load_config. rewrite (exists_file _ _ _ Hfile), Hfile. simpl.
    destruct Hdoc as [->|(override & -> & Hapi)].
    - by exists ∅.
    - exists override. split; [|done]. by destruct (py_bool (VDict override)) eqn:Hb;
        [|apply negb_false_iff, bool_decide_eq_true in Hb; subst override]. }
  exists (deep_merge DEFAULT_CONFIG override).
  assert (Htok : token_required_of (deep_merge DEFAULT_CONFIG override) = Ok "").
  { unfold token_required_of. simpl. by rewrite deep_merge_lookup, Hapi. }
  split_and!; try done.
  intros authorization. by rewrite !(trigger_train_eq _ _ _ _ _ Hcfg Htok).
Qed.
End open_endpoint.
(** A computation that returned a pair is the pair of its results. *)
Lemma result_ok_pair {A B} (r : result (A * B)) (d : A * B) :
  is_ok r = true →
  r = Ok ((match r with Ok x => x | Raise _ => d end).1,
          (match r with Ok x => x | Raise _ => d end).2).
Proof. by destruct r as [[a b]|]. Qed.

Section demo_runs.
#[local] Existing Instances demo_builtins demo_env demo_sklearn demo_formatting.

Lemma run_pipeline_records_witness :
  ∃ s model metrics hpo_report,
    production_dir_of demo_config = Ok ([s] // "production")
    ∧ w_files demo_run.2 !! ([s] // "latest_run.json") = Some (FJson demo_run.1)
    ∧ w_files demo_run.2 !! (run_dir_of s demo_disk // "summary.json")
      = Some (FJson demo_run.1)
    ∧ w_files demo_run.2 !! (run_dir_of s demo_disk // "model.joblib")
      = Some (FBytes (joblib_dumps model))
    ∧ w_files demo_run.2 !! (run_dir_of s demo_disk // "metrics.json") = Some (FJson metrics)
    ∧ w_files demo_run.2 !! (run_dir_of s demo_disk // "hpo.json")
      = Some (FJson hpo_report)
    ∧ demo_run.1 !! "run_id" = Some (VStr (make_run_id demo_disk).1)
    ∧ demo_run.1 !! "reason" = Some (VStr "manual")
    ∧ demo_run.1 !! "metrics" = Some (VDict metrics)
    ∧ demo_run.1 !! "hpo" = Some (VDict hpo_report).
Proof.
  apply (@run_pipeline_records demo_builtins demo_env demo_sklearn demo_formatting
           demo_config "manual" demo_disk demo_run.1 demo_run.2).
  apply (result_ok_pair _ (∅, demo_disk)). vm_compute. reflexivity.
Defined.

Lemma run_pipeline_production_witness :
  ∃ s metrics t p c,
    production_dir_of demo_config = Ok ([s] // "production")
    ∧ demo_run.1 !! "metrics" = Some (VDict metrics)
    ∧ threshold_of demo_config = Ok t
    ∧ production_accuracy_at ([s] // "production") demo_disk = Ok p
    ∧ candidate_accuracy metrics = Ok c
    ∧ demo_run.1 !! "promotion"
      = Some (VDict (promotion_record (float_ge c t && float_ge c p) t p c))
    ∧ if float_ge c t && float_ge c p then
        w_files demo_run.2 !! ([s] // "production" // "model.joblib")
        = w_files demo_run.2 !! (run_dir_of s demo_disk // "model.joblib")
        ∧ ∃ m now,
            w_files demo_run.2 !! ([s] // "production" // "metrics.json") = Some (FJson m)
            ∧ m !! "run_id" = Some (VStr (make_run_id demo_disk).1)
            ∧ m !! "promoted_at" = Some (VStr now)
            ∧ ∀ k, k ≠ "run_id" → k ≠ "promoted_at" → m !! k = metrics !! k
      else
        w_files demo_run.2 !! ([s] // "production" // "model.joblib")
        = w_files demo_disk !! ([s] // "production" // "model.joblib")
        ∧ w_files demo_run.2 !! ([s] // "production" // "metrics.json")
          = w_files demo_disk !! ([s] // "production" // "metrics.json").
Proof.
  apply (@run_pipeline_production demo_builtins demo_env demo_sklearn demo_formatting
           demo_config "manual" demo_disk demo_run.1 demo_run.2).
  apply (result_ok_pair _ (∅, demo_disk)). vm_compute. reflexivity.
Defined.

(** The example run is promoted: its model is the production model. *)
Example demo_run_promoted :
  get_path ["promotion"; "promoted"] (VDict demo_run.1) = Some (VBool true)
  ∧ w_files demo_run.2 !! ["ml/artifacts"; "production"; "model.joblib"]
    = Some (FBytes "best").
Proof. vm_compute. done. Qed.



Lemma trigger_train_no_token_witness :
  match run_pipeline (deep_merge DEFAULT_CONFIG demo_open_override) "api" demo_open_disk with
  | Ok (summary, w') =>
      ∃ run_id metrics,
        summary !! "run_id" = Some (VStr run_id)
        ∧ summary !! "metrics" = Some (VDict metrics)
        ∧ trigger_train ["ml/config.yaml"] (Some "Basic dXNlcjpwdw==") demo_open_disk
          = Ok (train_response (VStr run_id) (VDict metrics), w')
  | Raise e =>
      trigger_train ["ml/config.yaml"] (Some "Basic dXNlcjpwdw==") demo_open_disk = Raise e
  end.
Proof.
  apply (@trigger_train_no_token demo_builtins demo_env demo_sklearn demo_formatting
           ["ml/config.yaml"] (Some "Basic dXNlcjpwdw==") demo_open_disk
           (deep_merge DEFAULT_CONFIG demo_open_override)).
  - vm_compute. reflexivity.
  - vm_compute. reflexivity.
Defined.

Lemma default_token_blank_witness :
  ∃ cfg,
    load_config ["ml/config.yaml"] demo_open_disk = Ok cfg
    ∧ token_required_of cfg = Ok ""
    ∧ ∀ authorization,
        trigger_train ["ml/config.yaml"] authorization demo_open_disk
        = trigger_train ["ml/config.yaml"] None demo_open_disk.
Proof.
  apply (@default_token_blank demo_builtins demo_env demo_sklearn demo_formatting
           ["ml/config.yaml"] demo_open_disk (VDict demo_open_override)).
  - vm_compute. reflexivity.
  - right. exists demo_open_override. split; reflexivity.
Defined.
End demo_runs.
